(** * lipszyc: a caching mirror of the wolnelektury.pl catalogue

    A shallow embedding of [main.go].  The program is effectful: it reads and
    writes the local file system, talks to a remote HTTP server, logs, and
    may abort through a nil dereference (panic) or [log.Fatal].

    - Pure library calls ([net/url], [encoding/json], [path]) are taken as an
      interface (type classes [NetURL], [PathLib], [EncodingJSON]); the
      operating system and the network are an interface as well
      ([Outside]).  Every statement below holds for all implementations.
    - Effects are explicit state passing over a [World] that carries the
      file system, the remote side, the [-offline] flag and a chronological
      trace of the calls made.
    - A computation ends in one of three ways ([outcome]): it returns, it
      panics, or the process exits. *)

From Stdlib Require Import String Ascii List ZArith NArith Lia.
From stdpp Require Import base option list gmap strings fin_maps.

Open Scope string_scope.
Open Scope list_scope.

(** ** Go values shared by every package *)

(** A byte slice. *)
Abbreviation bytes := (list Byte.byte).

(** The [errno] values the [os] package can wrap in a [*PathError]. *)
Inductive errno : Type :=
| ENOENT | EEXIST | EACCES | EIO | EISDIR | ENOTDIR | ENOSPC.

(** Go's [error] values, as far as [main.go] can tell them apart:
    what [os] returns, the package-level sentinel [ErrOffline], and the
    errors of [net/http], [net/url] and [encoding/json] (opaque, kept by
    their message). *)
Inductive error : Type :=
| PathError (op path : string) (e : errno)
| ErrOffline
| LibError (pkg msg : string).

Definition errno_Error (e : errno) : string :=
  match e with
  | ENOENT => "no such file or directory"
  | EEXIST => "file exists"
  | EACCES => "permission denied"
  | EIO => "input/output error"
  | EISDIR => "is a directory"
  | ENOTDIR => "not a directory"
  | ENOSPC => "no space left on device"
  end.

(** [err.Error()]. *)
Definition Error (err : error) : string :=
  match err with
  | PathError op path e => op +:+ " " +:+ path +:+ ": " +:+ errno_Error e
  | ErrOffline => "resource unavailable: offline flag specified"
  | LibError pkg msg => pkg +:+ ": " +:+ msg
  end.

(** [os.IsNotExist(err)]: true for a path error that wraps [ENOENT]. *)
Definition os_IsNotExist (err : error) : bool :=
  match err with
  | PathError _ _ ENOENT => true
  | _ => false
  end.

(** [os.IsExist(err)]: true for a path error that wraps [EEXIST]. *)
Definition os_IsExist (err : error) : bool :=
  match err with
  | PathError _ _ EEXIST => true
  | _ => false
  end.

(** How a call ends: a normal return, a run-time panic, or [os.Exit]. *)
Inductive outcome (A : Type) : Type :=
| Ret (a : A)
| Panic (msg : string)
| Exit (code : Z).
Arguments Ret {A} a.
Arguments Panic {A} msg.
Arguments Exit {A} code.

#[global] Instance outcome_ret : MRet outcome := fun A a => Ret a.
#[global] Instance outcome_bind : MBind outcome := fun A B f m =>
  match m with
  | Ret a => f a
  | Panic msg => Panic msg
  | Exit code => Exit code
  end.

Definition nil_dereference : string :=
  "runtime error: invalid memory address or nil pointer dereference".

(** ** The libraries [main.go] imports *)

(** [net/url]: the type [url.URL], its method [String] on a non-nil
    receiver, and [url.Parse], which returns a pointer and an error. *)
Class NetURL : Type := {
  url_URL : Type;
  URL_String : url_URL -> string;
  url_Parse : string -> option url_URL * option error
}.

(** [path.Join(elem...)]. *)
Class PathLib : Type := {
  path_Join : list string -> string
}.

(** The method [String] called through a [*url.URL]: it reads the fields
    of its receiver, so a nil pointer panics. *)
Definition ptr_String `{NetURL} (p : option url_URL) : outcome string :=
  match p with
  | Some url => Ret (URL_String url)
  | None => Panic nil_dereference
  end.

(** ** The catalogue's data model (main.go, lines 18-82) *)

Record JsonURL `{NetURL} : Type := mkJsonURL {
  u : option url_URL
}.

Record BookEssential `{NetURL} : Type := mkBookEssential {
  be_Epoch : string;
  be_Kind : string;
  be_Genre : string;
  be_Url : JsonURL;
  be_Href : JsonURL;
  be_Slug : string;
  be_Author : string;
  be_Title : string
}.

Record Tag `{NetURL} : Type := mkTag {
  tag_Url : JsonURL;
  tag_Href : JsonURL;
  tag_Name : string;
  tag_Slug : string
}.

Record BookDetails `{NetURL} : Type := mkBookDetails {
  Authors : list Tag;
  Epochs : list Tag;
  Kinds : list Tag;
  Genres : list Tag;
  Slug : string;
  Title : string;
  Parent : option BookEssential;
  Children : list BookEssential;
  URL : JsonURL;
  Txt : JsonURL;
  Xml : JsonURL;
  Html : JsonURL;
  Fb2 : JsonURL;
  Epub : JsonURL;
  Mobi : JsonURL;
  Pdf : JsonURL
}.

(** The zero values Go gives a declared variable. *)
Definition zero_JsonURL `{NetURL} : JsonURL := {| u := None |}.

Definition zero_BookDetails `{NetURL} : BookDetails :=
  {| Authors := []; Epochs := []; Kinds := []; Genres := [];
     Slug := ""; Title := ""; Parent := None; Children := [];
     URL := zero_JsonURL;
     Txt := zero_JsonURL; Xml := zero_JsonURL; Html := zero_JsonURL;
     Fb2 := zero_JsonURL; Epub := zero_JsonURL; Mobi := zero_JsonURL;
     Pdf := zero_JsonURL |}.

(** [book.Slug = s]. *)
Definition set_Slug `{NetURL} (s : string) (book : BookDetails) : BookDetails :=
  {| Authors := Authors book; Epochs := Epochs book; Kinds := Kinds book;
     Genres := Genres book; Slug := s; Title := Title book;
     Parent := Parent book; Children := Children book; URL := URL book;
     Txt := Txt book; Xml := Xml book; Html := Html book; Fb2 := Fb2 book;
     Epub := Epub book; Mobi := Mobi book; Pdf := Pdf book |}.

(** [encoding/json], at the types [main.go] uses it: [json.Marshal] of a
    string, and [json.Unmarshal] into a freshly declared (zero) string,
    [BookDetails] and a slice of [BookEssential].  Each returns what the target
    holds afterwards together with the error. *)
Class EncodingJSON `{NetURL} : Type := {
  json_Marshal_string : string -> bytes * option error;
  json_Unmarshal_string : bytes -> string * option error;
  json_Unmarshal_BookDetails : bytes -> BookDetails * option error;
  json_Unmarshal_Books : bytes -> list BookEssential * option error
}.

(** The world outside the process: the local file system and the remote
    side, with the calls [main.go] makes on them.
    - [fs_read] is [ioutil.ReadFile]: the bytes read and the error.
    - [fs_write] is [ioutil.WriteFile]: the file system afterwards (a failed
      write may still have created or truncated the file) and the error.
    - [fs_mkdir] is [os.Mkdir], which either creates the directory or fails
      and leaves the file system as it was.
    - [net_get] is [httpClient.Get]: the remote side afterwards and either
      a response or an error.  A response is what draining its body with
      [ioutil.ReadAll] gives. *)
Record Response : Type := mkResponse {
  Body : bytes * option error
}.

Class Outside : Type := {
  FS : Type;
  Net : Type;
  fs_read : FS -> string -> bytes * option error;
  fs_write : FS -> string -> bytes -> N -> FS * option error;
  fs_mkdir : FS -> string -> N -> FS + error;
  net_get : Net -> string -> Net * (Response + error)
}.

(** The calls a run makes, in the order it makes them. *)
Inductive event : Type :=
| ReadFile_call (path : string)
| WriteFile_call (path : string) (data : bytes) (perm : N)
| Mkdir_call (path : string) (perm : N)
| Get_call (url : string)
| Log_call (msg : string).

Definition is_Get (e : event) : bool :=
  match e with Get_call _ => true | _ => false end.

Definition is_Write (e : event) : bool :=
  match e with WriteFile_call _ _ _ => true | _ => false end.

(** The number of network calls, and of file writes, in a trace. *)
Definition net_calls (t : list event) : nat := length (List.filter is_Get t).
Definition fs_writes (t : list event) : nat := length (List.filter is_Write t).

Record World `{Outside} : Type := mkWorld {
  fs : FS;
  net : Net;
  Offline : bool;
  trace : list event
}.

Definition record `{Outside} (e : event) (w : World) : World :=
  {| fs := fs w; net := net w; Offline := Offline w; trace := trace w ++ [e] |}.

Definition with_fs `{Outside} (f : FS) (w : World) : World :=
  {| fs := f; net := net w; Offline := Offline w; trace := trace w |}.

Definition with_net `{Outside} (n : Net) (w : World) : World :=
  {| fs := fs w; net := n; Offline := Offline w; trace := trace w |}.

(** ** Effectful computations *)

Definition M `{Outside} (A : Type) : Type := World -> outcome A * World.

#[global] Instance M_ret `{Outside} : MRet M := fun A a w => (Ret a, w).
#[global] Instance M_bind `{Outside} : MBind M := fun A B f m w =>
  match m w with
  | (Ret a, w') => f a w'
  | (Panic msg, w') => (Panic msg, w')
  | (Exit code, w') => (Exit code, w')
  end.

(** A pure call that may panic, run inside an effectful one. *)
Definition lift `{Outside} {A : Type} (o : outcome A) : M A := fun w => (o, w).

Definition octal_0644 : N := 420.
Definition octal_0755 : N := 493.

Definition ioutil_ReadFile `{Outside} (path : string) : M (bytes * option error) :=
  fun w => (Ret (fs_read (fs w) path), record (ReadFile_call path) w).

Definition ioutil_WriteFile `{Outside} (path : string) (data : bytes) (perm : N)
  : M (option error) :=
  fun w => let '(f, err) := fs_write (fs w) path data perm in
           (Ret err, with_fs f (record (WriteFile_call path data perm) w)).

Definition os_Mkdir `{Outside} (path : string) (perm : N) : M (option error) :=
  fun w => match fs_mkdir (fs w) path perm with
           | inl f => (Ret None, with_fs f (record (Mkdir_call path perm) w))
           | inr e => (Ret (Some e), record (Mkdir_call path perm) w)
           end.

Definition httpClient_Get `{Outside} (url : string) : M (Response + error) :=
  fun w => let '(n, r) := net_get (net w) url in
           (Ret r, with_net n (record (Get_call url) w)).

Definition ioutil_ReadAll (resp : Response) : bytes * option error := Body resp.

(** [*Offline]: the flag, read. *)
Definition read_Offline `{Outside} : M bool := fun w => (Ret (Offline w), w).

(** [log.Print(msg)]. *)
Definition log_Print `{Outside} (msg : string) : M unit :=
  fun w => (Ret tt, record (Log_call msg) w).

(** [log.Fatal(msg)]: print, then [os.Exit(1)]. *)
Definition log_Fatal `{Outside} {A : Type} (msg : string) : M A :=
  fun w => (Exit 1, record (Log_call msg) w).

(** A function with a named result and a [defer] that assigns to it: the
    deferred function runs when the body returns, on the values the body
    returned; when the body panics or the process exits nothing is
    returned. *)
Definition deferred `{Outside} {A : Type} (after : A -> A) (body : M A) : M A :=
  fun w => match body w with
           | (Ret a, w') => (Ret (after a), w')
           | r => r
           end.

(** ** The program (main.go) *)

Section Program.
Context `{NetURL} `{PathLib} `{!EncodingJSON} `{Outside}.

(** main.go, lines 22-24.  [json.Marshal(j.u.String())]. *)
Definition JsonURL_MarshalJSON (j : JsonURL) : outcome (bytes * option error) :=
  s ← ptr_String (u j);
  mret (json_Marshal_string s).

(** main.go, lines 26-35.  The receiver [j] is a pointer to the value to
    fill: the result is the value it points to afterwards, and the error.
    A failed [json.Unmarshal] returns before [j.u] is assigned; a failed
    [url.Parse] assigns the (nil) pointer it returned. *)
Definition JsonURL_UnmarshalJSON (j : JsonURL) (b : bytes) : JsonURL * option error :=
  let '(s, err) := json_Unmarshal_string b in
  match err with
  | Some _ => (j, err)
  | None =>
    let '(p, err) := url_Parse s in
    ({| u := p |}, err)
  end.

(** main.go, lines 37-39. *)
Definition JsonURL_String (j : JsonURL) : outcome string :=
  ptr_String (u j).

(** main.go, lines 84-91. *)
Definition mustParseUrl (str : string) : outcome (option url_URL) :=
  let '(p, err) := url_Parse str in
  match err with
  | Some _ => Panic "predefined url cannot be parsed"
  | None => Ret p
  end.

(** main.go, lines 100-104: the package-level variables. *)
Definition BooksFile : string := "books.json".
Definition ApiBooksUrl : outcome (option url_URL) :=
  mustParseUrl "https://wolnelektury.pl/api/books/".
Definition DetailsFile : string := "details.json".

(** main.go, lines 107-138. *)
Definition cachedFile (filePath : string) (originUrl : option url_URL)
  : M (bytes * option error) :=
  '(content, err) ← ioutil_ReadFile filePath;
  match err with
  | None => mret (content, err)
  | Some e =>
    if negb (os_IsNotExist e) then mret (content, err)
    else
      offline ← read_Offline;
      if (offline : bool) then mret ([], Some ErrOffline)
      else
        log_Print (filePath +:+ " not available offline, downloading");;
        url ← lift (ptr_String originUrl);
        r ← httpClient_Get url;
        match r with
        | inr e' => mret (content, Some e')
        | inl resp =>
          let '(content, err) := ioutil_ReadAll resp in
          match err with
          | Some _ => mret (content, err)
          | None =>
            err ← ioutil_WriteFile filePath content octal_0644;
            log_Print (filePath +:+ " synced and saved");;
            mret (content, err)
          end
        end
  end.

(** main.go, lines 140-148. *)
Definition BooksList : M (list BookEssential * option error) :=
  api ← lift ApiBooksUrl;
  '(content, err) ← cachedFile BooksFile api;
  match err with
  | Some _ => mret ([], err)
  | None => mret (json_Unmarshal_Books content)
  end.

(** main.go, lines 150-161.  [book] is the named result; the deferred
    function stamps [b.Slug] into it after the body has returned. *)
Definition BookEssential_Details (b : BookEssential)
  : M (BookDetails * option error) :=
  deferred (fun '(book, err) => (set_Slug (be_Slug b) book, err))
    ('(content, err) ← cachedFile (path_Join [be_Slug b; DetailsFile]) (u (be_Href b));
     match err with
     | Some _ => mret (zero_BookDetails, err)
     | None => mret (json_Unmarshal_BookDetails content)
     end).

(** main.go, lines 184-210.  Each test calls [String] on the field, which
    panics on a field that holds no URL. *)
Definition BookDetails_Files (b : BookDetails) : outcome (gmap string JsonURL) :=
  let f : gmap string JsonURL := ∅ in
  s ← JsonURL_String (Txt b);
  let f := if decide (s ≠ "") then <[Slug b +:+ ".txt" := Txt b]> f else f in
  s ← JsonURL_String (Xml b);
  let f := if decide (s ≠ "") then <[Slug b +:+ ".xml" := Xml b]> f else f in
  s ← JsonURL_String (Html b);
  let f := if decide (s ≠ "") then <[Slug b +:+ ".html" := Html b]> f else f in
  s ← JsonURL_String (Fb2 b);
  let f := if decide (s ≠ "") then <[Slug b +:+ ".fb2" := Fb2 b]> f else f in
  s ← JsonURL_String (Epub b);
  let f := if decide (s ≠ "") then <[Slug b +:+ ".epub" := Epub b]> f else f in
  s ← JsonURL_String (Mobi b);
  let f := if decide (s ≠ "") then <[Slug b +:+ ".mobi" := Mobi b]> f else f in
  s ← JsonURL_String (Pdf b);
  let f := if decide (s ≠ "") then <[Slug b +:+ ".pdf" := Pdf b]> f else f in
  mret f.

(** The body of the loop of main.go, lines 174-179, over the entries of
    the map in the order the run-time yields them. *)
Fixpoint obtain_files (slug : string) (entries : list (string * JsonURL)) : M unit :=
  match entries with
  | [] => mret tt
  | (fileName, originUrl) :: rest =>
    '(_, err) ← cachedFile (path_Join [slug; fileName]) (u originUrl);
    match err with
    | Some e => log_Fatal ("failed to obtain file " +:+ fileName +:+ Error e)
    | None => obtain_files slug rest
    end
  end.

(** main.go, lines 163-182.  Go leaves the order in which [range] visits a
    map unspecified: [range_order] is the order of this run. *)
Definition BookEssential_ObtainBook
  (range_order : gmap string JsonURL -> list (string * JsonURL))
  (b : BookEssential) : M BookDetails :=
  err ← os_Mkdir (be_Slug b) octal_0755;
  match err with
  | Some e => if negb (os_IsExist e) then log_Fatal (Error e) else mret tt
  | None => mret tt
  end;;
  '(book, err) ← BookEssential_Details b;
  match err with
  | Some e => log_Fatal (Error e)
  | None => mret tt
  end;;
  files ← lift (BookDetails_Files book);
  obtain_files (be_Slug b) (range_order files);;
  mret book.

End Program.

(** ** The entry point (main.go, lines 212-226) *)

(** [flag.Parse()] over the command line, with the one flag [-offline]
    that [main.go] declares: the value the flag holds afterwards, or the
    end of the process on a command line that does not parse. *)
Class FlagLib : Type := {
  flag_Parse : list string -> outcome bool
}.

(** The progress bar of [gopkg.in/cheggaaa/pb.v1], as far as [main] drives
    it: [pb.StartNew(total)], [Increment] and [Finish]. *)
Class ProgressBar : Type := {
  Bar : Type;
  pb_StartNew : nat -> Bar;
  pb_Increment : Bar -> Bar;
  pb_Finish : Bar -> Bar
}.

Definition with_offline `{Outside} (o : bool) (w : World) : World :=
  {| fs := fs w; net := net w; Offline := o; trace := trace w |}.

Section Driver.
Context `{NetURL} `{PathLib} `{!EncodingJSON} `{Outside} `{FlagLib} `{ProgressBar}.

(** [flag.Parse()]: sets [*Offline]. *)
Definition flag_Parse_args (args : list string) : M unit :=
  fun w => match flag_Parse args with
           | Ret o => (Ret tt, with_offline o w)
           | Panic msg => (Panic msg, w)
           | Exit code => (Exit code, w)
           end.

(** The loop of main.go, lines 221-224, from its [i]-th iteration on.  A
    slice is visited in order; [range_order i] is the order in which the
    [i]-th call of [ObtainBook] visits its map of files. *)
Fixpoint obtain_books
  (range_order : nat -> gmap string JsonURL -> list (string * JsonURL))
  (i : nat) (books : list BookEssential) (progress : Bar) : M Bar :=
  match books with
  | [] => mret progress
  | bookBase :: rest =>
    BookEssential_ObtainBook (range_order i) bookBase;;
    obtain_books range_order (S i) rest (pb_Increment progress)
  end.

(** main.go, lines 212-226.  The result is the progress bar as [main]
    leaves it. *)
Definition main (args : list string)
  (range_order : nat -> gmap string JsonURL -> list (string * JsonURL))
  : M Bar :=
  flag_Parse_args args;;
  '(books, err) ← BooksList;
  match err with
  | Some e => log_Fatal (Error e)
  | None => mret tt
  end;;
  progress ← obtain_books range_order 0 books (pb_StartNew (length books));
  mret (pb_Finish progress).



End Driver.

(** ** Vocabulary of the statements *)

Section Vocabulary.
Context `{NetURL} `{PathLib} `{!EncodingJSON} `{Outside}.

(** The seven formats: the extension and the field that holds the link. *)
Definition format_fields : list (string * (BookDetails -> JsonURL)) :=
  [("txt", Txt); ("xml", Xml); ("html", Html); ("fb2", Fb2);
   ("epub", Epub); ("mobi", Mobi); ("pdf", Pdf)].

(** The seven blocks of [BookDetails_Files] as one loop over
    (extension, link) pairs, starting from the map [f]. *)
Fixpoint files_from (slug : string) (links : list (string * JsonURL))
  (f : gmap string JsonURL) : outcome (gmap string JsonURL) :=
  match links with
  | [] => mret f
  | (ext, j) :: rest =>
    s ← JsonURL_String j;
    files_from slug rest
      (if decide (s ≠ "") then <[slug +:+ "." +:+ ext := j]> f else f)
  end.

(** The library facts the JSON round trip of a URL rests on, at the one
    string [s] concerned: [json.Unmarshal] reads back the string that
    [json.Marshal] wrote, and [url.Parse] accepts [s] and gives a URL whose
    string form is [s] again. *)
Definition json_string_round_trip (s : string) : Prop :=
  exists b : bytes,
    json_Marshal_string s = (b, None) /\ json_Unmarshal_string b = (s, None).

Definition url_reparses (s : string) : Prop :=
  exists url' : url_URL,
    url_Parse s = (Some url', None) /\ URL_String url' = s.

(** The directory [slug] is there: creating it fails with "file exists". *)
Definition dir_present (f : FS) (slug : string) : Prop :=
  exists e : error, fs_mkdir f slug octal_0755 = inr e /\ os_IsExist e = true.

(** The file [path] is there and readable. *)
Definition readable (f : FS) (path : string) : Prop :=
  exists content : bytes, fs_read f path = (content, None).

(** The cache of the work [b] is fully populated: its directory is there,
    its [details.json] is readable, and so is every file that the decoded
    details resolve to. *)
Definition cache_populated (f : FS) (b : BookEssential) : Prop :=
  dir_present f (be_Slug b) /\
  exists content : bytes,
    fs_read f (path_Join [be_Slug b; DetailsFile]) = (content, None) /\
    forall (decoded : BookDetails) (files : gmap string JsonURL)
           (fileName : string) (originUrl : JsonURL),
      json_Unmarshal_BookDetails content = (decoded, None) ->
      BookDetails_Files (set_Slug (be_Slug b) decoded) = Ret files ->
      files !! fileName = Some originUrl ->
      readable f (path_Join [be_Slug b; fileName]).

(** The world after the GET of an online miss: the read, the log line and
    the GET have been recorded, and the remote side is [n]. *)
Definition after_get (filePath url : string) (n : Net) (w : World) : World :=
  with_net n
    (record (Get_call url)
       (record (Log_call (filePath +:+ " not available offline, downloading"))
          (record (ReadFile_call filePath) w))).

(** What [ObtainBook] ends with when the directory is there and
    [details.json] reads as [content]: the decoded details with the slug
    stamped in, unless decoding fails (fatal) or resolving the files
    panics. *)
Definition outcome_from_cache (slug : string) (content : bytes)
  : outcome BookDetails :=
  match json_Unmarshal_BookDetails content with
  | (decoded, None) =>
      BookDetails_Files (set_Slug slug decoded) ≫= fun _ =>
      Ret (set_Slug slug decoded)
  | (_, Some _) => Exit 1
  end.

(** No network call and no change of the file system between two worlds. *)
Definition undisturbed (w w' : World) : Prop :=
  fs w' = fs w /\ net w' = net w /\ Offline w' = Offline w /\
  net_calls (trace w') = net_calls (trace w) /\
  fs_writes (trace w') = fs_writes (trace w).

End Vocabulary.

(** ** Further vocabulary *)

Section MoreVocabulary.
Context `{NetURL} `{PathLib} `{!EncodingJSON} `{Outside}.

(** The world after the log line of a miss: the read and the log line have
    been recorded. *)
Definition after_miss (filePath : string) (w : World) : World :=
  record (Log_call (filePath +:+ " not available offline, downloading"))
    (record (ReadFile_call filePath) w).

(** The cases of a call of [cachedFile], by what the read returns. *)
Inductive read_case (w : World) (filePath : string) : Type :=
| read_local (content : bytes) (err : option error)
    (Hread : fs_read (fs w) filePath = (content, err))
    (Hlocal : match err with
              | Some e => os_IsNotExist e = false
              | None => True
              end)
| read_miss (content : bytes) (e : error)
    (Hread : fs_read (fs w) filePath = (content, Some e))
    (Hmiss : os_IsNotExist e = true).

(** Nothing was fetched between two worlds: no GET and no file write, the
    remote side and the flag as before.  (The file system may have gained
    a directory.) *)
Definition no_fetch (w w' : World) : Prop :=
  net w' = net w /\ Offline w' = Offline w /\
  net_calls (trace w') = net_calls (trace w) /\
  fs_writes (trace w') = fs_writes (trace w).

(** What [ObtainBook] does once the directory is settled: main.go, lines
    169-181. *)
Definition obtain_in_dir
  (range_order : gmap string JsonURL -> list (string * JsonURL))
  (b : BookEssential) : M BookDetails :=
  '(book, err) ← BookEssential_Details b;
  match err with
  | Some e => log_Fatal (Error e)
  | None => mret tt
  end;;
  files ← lift (BookDetails_Files book);
  obtain_files (be_Slug b) (range_order files);;
  mret book.

(** How a run can end when it does not return: with the panic of a nil
    dereference, or with exit status 1. *)
Definition abnormal_end {A : Type} (o : outcome A) : Prop :=
  match o with
  | Ret _ => True
  | Panic msg => msg = nil_dereference
  | Exit code => code = 1%Z
  end.

(** The number of links with a non-empty string form. *)
Definition count_available (links : list JsonURL) : nat :=
  length (List.filter
            (fun j => match JsonURL_String j with
                      | Ret s => negb (String.eqb s "")
                      | _ => false
                      end) links).

End MoreVocabulary.

(** ** A small implementation of the interfaces

    Used to run the definitions on concrete inputs: URLs are kept by their
    string form, JSON strings are quoted without escapes, paths are joined
    with a slash, the file system is a flat map from paths to files and
    directories, and the remote side is a map from URLs to bodies. *)

Module Demo.

Definition is_control (c : ascii) : bool :=
  (nat_of_ascii c <? 32)%nat || (nat_of_ascii c =? 127)%nat.

Definition parse (s : string) : option string * option error :=
  if existsb is_control (list_ascii_of_string s)
  then (None, Some (LibError "net/url" "invalid control character in URL"))
  else (Some s, None).

Definition url : NetURL :=
  {| url_URL := string; URL_String := fun s => s; url_Parse := parse |}.

Fixpoint join_with_slash (elem : list string) : string :=
  match elem with
  | [] => ""
  | [x] => x
  | x :: rest => x +:+ "/" +:+ join_with_slash rest
  end.

Definition path : PathLib :=
  {| path_Join := fun elem =>
       join_with_slash (List.filter (fun s => negb (String.eqb s "")) elem) |}.

Definition quote : Byte.byte := Byte.x22.

#[local] Instance byte_eq_dec : EqDecision Byte.byte := Byte.byte_eq_dec.

Definition marshal_string (s : string) : bytes * option error :=
  (quote :: list_byte_of_string s ++ [quote], None).

Definition unmarshal_string (b : bytes) : string * option error :=
  match b with
  | Byte.x22 :: rest =>
    match List.rev rest with
    | Byte.x22 :: inner => (string_of_list_byte (List.rev inner), None)
    | _ => ("", Some (LibError "encoding/json" "unexpected end of JSON input"))
    end
  | _ => ("", Some (LibError "encoding/json" "cannot unmarshal into Go value of type string"))
  end.

(** A pointer to the URL of string form [s], and a [JsonURL] around it. *)
Definition ptr (s : string) : option (@url_URL url) := Some s.
Definition link (s : string) : @JsonURL url := @mkJsonURL url (ptr s).

(** The details of the work "lorem": a text and a PDF, no other format. *)
Definition lorem_details : @BookDetails url :=
  {| Authors := []; Epochs := []; Kinds := []; Genres := [];
     Slug := ""; Title := "Lorem ipsum"; Parent := None; Children := [];
     URL := link "http://api/katalog/lorem/";
     Txt := link "http://x/lorem.txt"; Xml := link ""; Html := link "";
     Fb2 := link ""; Epub := link ""; Mobi := link "";
     Pdf := link "http://x/lorem.pdf" |}.

(** Details with a text link only, under the slug "foo". *)
Definition foo_details : @BookDetails url :=
  {| Authors := []; Epochs := []; Kinds := []; Genres := [];
     Slug := "foo"; Title := ""; Parent := None; Children := [];
     URL := link "";
     Txt := link "http://x/a.txt"; Xml := link ""; Html := link "";
     Fb2 := link ""; Epub := link ""; Mobi := link ""; Pdf := link "" |}.

(** What a decoder leaves behind when the document breaks off after the
    slug and the title. *)
Definition truncated_details : @BookDetails url :=
  set_Slug "not-lorem" (@zero_BookDetails url).

Definition unmarshal_details (content : bytes) : @BookDetails url * option error :=
  if decide (content = list_byte_of_string "lorem details") then
    (lorem_details, None)
  else if decide (content = list_byte_of_string "lorem det") then
    (truncated_details, Some (LibError "encoding/json" "unexpected end of JSON input"))
  else
    (@zero_BookDetails url, Some (LibError "encoding/json" "invalid character")).

Definition lorem : @BookEssential url :=
  {| be_Epoch := ""; be_Kind := ""; be_Genre := "";
     be_Url := link "http://api/katalog/lorem/";
     be_Href := link "http://api/lorem/";
     be_Slug := "lorem"; be_Author := "Anonim"; be_Title := "Lorem ipsum" |}.

Definition unmarshal_books (content : bytes) : list (@BookEssential url) * option error :=
  if decide (content = list_byte_of_string "lorem list") then ([lorem], None)
  else ([], Some (LibError "encoding/json" "invalid character")).

Definition json : @EncodingJSON url :=
  {| json_Marshal_string := marshal_string;
     json_Unmarshal_string := unmarshal_string;
     json_Unmarshal_BookDetails := unmarshal_details;
     json_Unmarshal_Books := unmarshal_books |}.

Inductive node : Type :=
| File (data : bytes)
| Dir.

Definition read (f : gmap string node) (p : string) : bytes * option error :=
  match f !! p with
  | Some (File data) => (data, None)
  | Some Dir => ([], Some (PathError "read" p EISDIR))
  | None => ([], Some (PathError "open" p ENOENT))
  end.

Definition write (f : gmap string node) (p : string) (data : bytes) (perm : N)
  : gmap string node * option error :=
  match f !! p with
  | Some Dir => (f, Some (PathError "open" p EISDIR))
  | _ => (<[p := File data]> f, None)
  end.

Definition mkdir (f : gmap string node) (p : string) (perm : N)
  : gmap string node + error :=
  match f !! p with
  | Some _ => inr (PathError "mkdir" p EEXIST)
  | None => inl (<[p := Dir]> f)
  end.

Definition get (n : gmap string bytes) (url : string)
  : gmap string bytes * (Response + error) :=
  match n !! url with
  | Some body => (n, inl {| Body := (body, None) |})
  | None => (n, inr (LibError "net/http" "no such host"))
  end.

Definition outside : Outside :=
  {| FS := gmap string node; Net := gmap string bytes;
     fs_read := read; fs_write := write; fs_mkdir := mkdir; net_get := get |}.

(** The remote side: the details and the two files of "lorem". *)
Definition remote : gmap string bytes :=
  <["http://api/lorem/" := list_byte_of_string "lorem details"]>
  (<["http://x/lorem.txt" := list_byte_of_string "Lorem ipsum dolor sit amet"]>
  (<["http://x/lorem.pdf" := list_byte_of_string "%PDF-1.4"]> ∅)).

(** A populated cache of "lorem". *)
Definition cache : gmap string node :=
  <["lorem" := Dir]>
  (<["lorem/details.json" := File (list_byte_of_string "lorem details")]>
  (<["lorem/lorem.txt" := File (list_byte_of_string "Lorem ipsum dolor sit amet")]>
  (<["lorem/lorem.pdf" := File (list_byte_of_string "%PDF-1.4")]> ∅))).

Definition world (f : gmap string node) (offline : bool) : @World outside :=
  @mkWorld outside f remote offline [].

(** The order in which this run-time visits a map. *)
Definition range_order (m : gmap string (@JsonURL url))
  : list (string * @JsonURL url) := map_to_list m.

End Demo.

(** ** A command line, a progress bar and a less friendly outside world *)

Module DemoMain.

#[local] Existing Instance Demo.byte_eq_dec.

(** The one flag of [main.go]; any other argument ends the process with
    the usage status. *)
Definition parse_flags (args : list string) : outcome bool :=
  match args with
  | [] => Ret false
  | ["-offline"] => Ret true
  | _ => Exit 2
  end.

Definition flags : FlagLib := {| flag_Parse := parse_flags |}.

(** A progress bar kept as its total, its count and whether it was
    finished. *)
Record bar_state : Type := mkBar {
  total : nat;
  current : nat;
  finished : bool
}.

Definition bar : ProgressBar :=
  {| Bar := bar_state;
     pb_StartNew := fun n => mkBar n 0 false;
     pb_Increment := fun p => mkBar (total p) (S (current p)) (finished p);
     pb_Finish := fun p => mkBar (total p) (current p) true |}.

(** A second work, of which the remote side knows nothing. *)
Definition ipsum : @BookEssential Demo.url :=
  {| be_Epoch := ""; be_Kind := ""; be_Genre := "";
     be_Url := Demo.link "http://api/katalog/ipsum/";
     be_Href := Demo.link "http://api/ipsum/";
     be_Slug := "ipsum"; be_Author := "Anonim"; be_Title := "Ipsum" |}.

Definition unmarshal_books (content : bytes)
  : list (@BookEssential Demo.url) * option error :=
  if decide (content = list_byte_of_string "two works")
  then ([ipsum; Demo.lorem], None)
  else Demo.unmarshal_books content.

Definition json : @EncodingJSON Demo.url :=
  {| json_Marshal_string := Demo.marshal_string;
     json_Unmarshal_string := Demo.unmarshal_string;
     json_Unmarshal_BookDetails := Demo.unmarshal_details;
     json_Unmarshal_Books := unmarshal_books |}.

(** The populated cache of "lorem" together with its listing. *)
Definition cache_with_listing : gmap string Demo.node :=
  <["books.json" := Demo.File (list_byte_of_string "lorem list")]> Demo.cache.

(** A cache that holds only a listing of two works. *)
Definition listing_of_two : gmap string Demo.node :=
  {[ "books.json" := Demo.File (list_byte_of_string "two works") ]}.

(** A cache whose [details.json] breaks off. *)
Definition corrupt_cache : gmap string Demo.node :=
  <["lorem" := Demo.Dir]>
  {[ "lorem/details.json" := Demo.File (list_byte_of_string "lorem det") ]}.

(** A remote side that answers the detail request with a document that
    breaks off. *)
Definition truncating_remote : gmap string bytes :=
  {[ "http://api/lorem/" := list_byte_of_string "lorem det" ]}.

Definition order (i : nat) (m : gmap string (@JsonURL Demo.url))
  : list (string * @JsonURL Demo.url) := map_to_list m.

(** An outside world with a file system that may be read-only and a remote
    side whose responses may break off. *)
Definition write (f : bool * gmap string Demo.node) (p : string)
  (data : bytes) (perm : N) : (bool * gmap string Demo.node) * option error :=
  if f.1 then (f, Some (PathError "open" p EACCES))
  else let '(g, err) := Demo.write f.2 p data perm in ((f.1, g), err).

Definition mkdir (f : bool * gmap string Demo.node) (p : string) (perm : N)
  : (bool * gmap string Demo.node) + error :=
  match f.2 !! p with
  | Some _ => inr (PathError "mkdir" p EEXIST)
  | None => if f.1 then inr (PathError "mkdir" p EACCES)
            else inl (f.1, <[p := Demo.Dir]> f.2)
  end.

Definition get (n : gmap string Response) (url : string)
  : gmap string Response * (Response + error) :=
  match n !! url with
  | Some resp => (n, inl resp)
  | None => (n, inr (LibError "net/http" "no such host"))
  end.

Definition flaky : Outside :=
  {| FS := bool * gmap string Demo.node; Net := gmap string Response;
     fs_read := fun f p => Demo.read f.2 p;
     fs_write := write; fs_mkdir := mkdir; net_get := get |}.

(** A response that breaks off after five bytes. *)
Definition broken_response : Response :=
  {| Body := (list_byte_of_string "Lorem",
              Some (LibError "net/http" "unexpected EOF")) |}.

Definition flaky_remote : gmap string Response :=
  {[ "http://x/lorem.txt" := broken_response ]}.

Definition flaky_world (read_only : bool) : @World flaky :=
  @mkWorld flaky (read_only, ∅) flaky_remote false [].

End DemoMain.

(** ** Properties of the cached-fetch primitive *)

Section CachedFile.
Context `{NetURL} `{PathLib} `{!EncodingJSON} `{Outside}.

(** Running a sequence of calls in a world. *)
Lemma bind_run {A B : Type} (m : M A) (f : A -> M B) (w : World) :
  (m ≫= f) w =
  match m w with
  | (Ret a, w') => f a w'
  | (Panic msg, w') => (Panic msg, w')
  | (Exit code, w') => (Exit code, w')
  end.
Proof. reflexivity. Qed.

Lemma ret_run {A : Type} (a : A) (w : World) : (mret a : M A) w = (Ret a, w).
Proof. reflexivity. Qed.

Lemma net_calls_app (t1 t2 : list event) :
  net_calls (t1 ++ t2) = net_calls t1 + net_calls t2.
Proof. unfold net_calls. rewrite List.filter_app, length_app. reflexivity. Qed.

Lemma fs_writes_app (t1 t2 : list event) :
  fs_writes (t1 ++ t2) = fs_writes t1 + fs_writes t2.
Proof. unfold fs_writes. rewrite List.filter_app, length_app. reflexivity. Qed.

(** What [cachedFile] does once the local read has succeeded or has failed
    for a reason other than a missing file: it returns what the read
    returned, after that one call. *)
Lemma cachedFile_local (w : World) (filePath : string)
  (originUrl : option url_URL) (content : bytes) (err : option error) :
  fs_read (fs w) filePath = (content, err) ->
  match err with Some e => os_IsNotExist e = false | None => True end ->
  cachedFile filePath originUrl w =
    (Ret (content, err), record (ReadFile_call filePath) w).
Proof.
  intros Hread Hlocal. unfold cachedFile.
  rewrite bind_run. unfold ioutil_ReadFile at 1. rewrite Hread.
  destruct err as [e|]; [|reflexivity].
  rewrite Hlocal. reflexivity.
Qed.

(** C1: when the local path exists and is readable, [cachedFile] returns
    exactly the file's contents with no error; the only call it makes is
    that one read: the file system and the remote side are as before, and
    the trace gains no network call and no write. *)
Theorem cachedFile_cache_hit (w : World) (filePath : string)
  (originUrl : option url_URL) (content : bytes) :
  fs_read (fs w) filePath = (content, None) ->
  exists w' : World,
    cachedFile filePath originUrl w = (Ret (content, None), w') /\
    fs w' = fs w /\ net w' = net w /\
    trace w' = trace w ++ [ReadFile_call filePath] /\
    net_calls (trace w') = net_calls (trace w) /\
    fs_writes (trace w') = fs_writes (trace w).
Proof.
  intros Hread. eexists. split.
  - apply cachedFile_local; [exact Hread | exact I].
  - unfold record; cbn [fs net trace].
    rewrite net_calls_app, fs_writes_app. cbn. repeat split; lia.
Qed.

(** C2: when the local read fails and the error is not "file does not
    exist", [cachedFile] returns that very error (with whatever bytes the
    read returned), makes no network call and writes nothing. *)
Theorem cachedFile_read_error_propagates (w : World) (filePath : string)
  (originUrl : option url_URL) (content : bytes) (e : error) :
  fs_read (fs w) filePath = (content, Some e) ->
  os_IsNotExist e = false ->
  exists w' : World,
    cachedFile filePath originUrl w = (Ret (content, Some e), w') /\
    fs w' = fs w /\ net w' = net w /\
    trace w' = trace w ++ [ReadFile_call filePath] /\
    net_calls (trace w') = net_calls (trace w) /\
    fs_writes (trace w') = fs_writes (trace w).
Proof.
  intros Hread Hne. eexists. split.
  - apply cachedFile_local; [exact Hread | exact Hne].
  - unfold record; cbn [fs net trace].
    rewrite net_calls_app, fs_writes_app. cbn. repeat split; lia.
Qed.

(** C3: in offline mode, when the path does not exist, [cachedFile]
    returns no bytes and the error [ErrOffline], which is not the read's
    error and is not itself a "does not exist" error; it makes no network
    call and no write. *)
Theorem cachedFile_offline_miss (w : World) (filePath : string)
  (originUrl : option url_URL) (content : bytes) (e : error) :
  fs_read (fs w) filePath = (content, Some e) ->
  os_IsNotExist e = true ->
  Offline w = true ->
  exists w' : World,
    cachedFile filePath originUrl w = (Ret ([], Some ErrOffline), w') /\
    ErrOffline <> e /\ os_IsNotExist ErrOffline = false /\
    fs w' = fs w /\ net w' = net w /\
    trace w' = trace w ++ [ReadFile_call filePath] /\
    net_calls (trace w') = net_calls (trace w) /\
    fs_writes (trace w') = fs_writes (trace w).
Proof.
  intros Hread Hmiss Hoff. eexists. split.
  - unfold cachedFile.
    rewrite bind_run. unfold ioutil_ReadFile at 1. rewrite Hread, Hmiss.
    cbn [negb]. rewrite bind_run. unfold read_Offline at 1. cbn [Offline record].
    rewrite Hoff. reflexivity.
  - split; [intros <-; discriminate Hmiss|]. split; [reflexivity|].
    unfold record; cbn [fs net trace].
    rewrite net_calls_app, fs_writes_app. cbn. repeat split; lia.
Qed.

(** What [cachedFile] does online once the local read has failed with
    "does not exist", by the answer of the remote side. *)
Lemma cachedFile_miss_online (w : World) (filePath : string)
  (url : url_URL) (content : bytes) (e : error) :
  fs_read (fs w) filePath = (content, Some e) ->
  os_IsNotExist e = true ->
  Offline w = false ->
  cachedFile filePath (Some url) w =
  match net_get (net w) (URL_String url) with
  | (n, inr e') =>
      (Ret (content, Some e'), after_get filePath (URL_String url) n w)
  | (n, inl resp) =>
      match ioutil_ReadAll resp with
      | (body, Some e') =>
          (Ret (body, Some e'), after_get filePath (URL_String url) n w)
      | (body, None) =>
          let '(f, werr) := fs_write (fs w) filePath body octal_0644 in
          (Ret (body, werr),
           record (Log_call (filePath +:+ " synced and saved"))
             (with_fs f
                (record (WriteFile_call filePath body octal_0644)
                   (after_get filePath (URL_String url) n w))))
      end
  end.
Proof.
  intros Hread Hmiss Hon. unfold cachedFile, after_get.
  rewrite bind_run. unfold ioutil_ReadFile at 1. rewrite Hread, Hmiss.
  cbn [negb]. rewrite bind_run. unfold read_Offline at 1.
  cbn [Offline record]. rewrite Hon.
  rewrite bind_run. unfold log_Print at 1.
  rewrite bind_run. unfold lift at 1. cbn [ptr_String].
  rewrite bind_run. unfold httpClient_Get at 1. cbn [net record].
  destruct (net_get (net w) (URL_String url)) as [n [resp|e']]; [|reflexivity].
  destruct (ioutil_ReadAll resp) as [body [e'|]]; [reflexivity|].
  rewrite bind_run. unfold ioutil_WriteFile at 1. cbn [fs record with_net].
  destruct (fs_write (fs w) filePath body octal_0644) as [f werr].
  reflexivity.
Qed.

(** The GETs of a trace that extends [t] by calls of which one is a GET. *)
Ltac count_gets :=
  unfold after_get, with_net, with_fs, record; cbn [trace];
  unfold net_calls; rewrite <- ?app_assoc, ?List.filter_app, ?length_app;
  cbn; rewrite ?app_nil_r; split; [reflexivity | lia].

(** C4: in online mode, when the path does not exist and a remote URL is
    given, [cachedFile] makes exactly one GET, to that URL, whatever the
    remote side answers.  When the answer is a response whose body reads in
    full, the body is written verbatim to the path (mode 0644) and the same
    bytes are returned, together with the error of the write if it failed;
    the calls made are, in order: the read, a log line, the GET, the write,
    a log line. *)
Theorem cachedFile_online_miss (w : World) (filePath : string)
  (url : url_URL) (content : bytes) (e : error) :
  fs_read (fs w) filePath = (content, Some e) ->
  os_IsNotExist e = true ->
  Offline w = false ->
  (exists (r : bytes * option error) (w' : World),
     cachedFile filePath (Some url) w = (Ret r, w') /\
     List.filter is_Get (trace w') =
       List.filter is_Get (trace w) ++ [Get_call (URL_String url)] /\
     net_calls (trace w') = S (net_calls (trace w))) /\
  (forall (n' : Net) (resp : Response) (body : bytes) (f' : FS)
          (werr : option error),
     net_get (net w) (URL_String url) = (n', inl resp) ->
     ioutil_ReadAll resp = (body, None) ->
     fs_write (fs w) filePath body octal_0644 = (f', werr) ->
     exists w' : World,
       cachedFile filePath (Some url) w = (Ret (body, werr), w') /\
       fs w' = f' /\ net w' = n' /\
       trace w' = trace w ++
         [ReadFile_call filePath;
          Log_call (filePath +:+ " not available offline, downloading");
          Get_call (URL_String url);
          WriteFile_call filePath body octal_0644;
          Log_call (filePath +:+ " synced and saved")] /\
       fs_writes (trace w') = S (fs_writes (trace w))).
Proof.
  intros Hread Hmiss Hon.
  rewrite (cachedFile_miss_online w filePath url content e Hread Hmiss Hon).
  split.
  - destruct (net_get (net w) (URL_String url)) as [n [resp|e']].
    + destruct (ioutil_ReadAll resp) as [body [e'|]].
      * eexists _, _. split; [reflexivity | count_gets].
      * destruct (fs_write (fs w) filePath body octal_0644) as [f werr].
        eexists _, _. split; [reflexivity | count_gets].
    + eexists _, _. split; [reflexivity | count_gets].
  - intros n' resp body f' werr Hget Hbody Hwrite.
    rewrite Hget, Hbody, Hwrite.
    eexists. split; [reflexivity|].
    unfold after_get, with_net, with_fs, record; cbn [fs net trace].
    rewrite <- !app_assoc. cbn [app].
    repeat split. rewrite fs_writes_app. cbn. lia.
Qed.

End CachedFile.

(** ** Properties of the URL codec and of file-set resolution *)

Section Pure.
Context `{NetURL} `{PathLib} `{!EncodingJSON} `{Outside}.

Ltac in_list :=
  repeat first [apply list_elem_of_here | apply list_elem_of_further].

(** [BookDetails_Files] is the loop [files_from] over the seven formats,
    started from the empty map. *)
Lemma Files_as_loop (b : BookDetails) :
  BookDetails_Files b =
  files_from (Slug b) (((fun p => (p.1, p.2 b)) <$> format_fields)) ∅.
Proof. reflexivity. Qed.

Lemma format_key_inj (slug ext1 ext2 : string) :
  slug +:+ "." +:+ ext1 = slug +:+ "." +:+ ext2 -> ext1 = ext2.
Proof.
  intros Heq. apply (inj (String.app slug)) in Heq.
  apply (inj (String.app ".")) in Heq. exact Heq.
Qed.

(** The loop panics as soon as one link holds no URL. *)
Lemma files_from_Panic (slug : string) (links : list (string * JsonURL))
  (f : gmap string JsonURL) :
  (exists p, p ∈ links /\ u p.2 = None) ->
  files_from slug links f = Panic nil_dereference.
Proof.
  revert f. induction links as [|[ext j] rest IH]; intros f (p & Hin & Hnil).
  - inversion Hin.
  - cbn [files_from]. unfold JsonURL_String.
    destruct (u j) as [url|] eqn:Hj; cbn.
    + apply IH. exists p. split; [|exact Hnil].
      apply elem_of_cons in Hin as [->|Hin]; [|exact Hin].
      cbn in Hnil. congruence.
    + reflexivity.
Qed.

(** When every link holds a URL, the loop returns; over extensions that
    are pairwise different and whose keys are free in [f], the result holds
    what [f] held and, for each link whose string form is not empty, that
    link under the key [slug.ext]. *)
Lemma files_from_Ret (slug : string) (links : list (string * JsonURL))
  (f : gmap string JsonURL) :
  (forall p, p ∈ links -> is_Some (u p.2)) ->
  NoDup links.*1 ->
  (forall ext, ext ∈ links.*1 -> f !! (slug +:+ "." +:+ ext) = None) ->
  exists m : gmap string JsonURL,
    files_from slug links f = Ret m /\
    forall (k : string) (v : JsonURL),
      m !! k = Some v <->
      f !! k = Some v \/
      exists ext, (ext, v) ∈ links /\ k = slug +:+ "." +:+ ext /\
                  JsonURL_String v ≠ Ret "".
Proof.
  revert f. induction links as [|[ext j] rest IH]; intros f Hall Hnodup Hfree.
  - exists f. split; [reflexivity|]. intros k v. split; [auto|].
    intros [Hf|(ext & Hin & _)]; [exact Hf | inversion Hin].
  - cbn [fmap list_fmap fst] in Hnodup, Hfree.
    apply NoDup_cons in Hnodup as [Hext Hnodup].
    destruct (Hall (ext, j)) as [url Hj]; [left|]. cbn in Hj.
    cbn [files_from]. unfold JsonURL_String at 1. rewrite Hj. cbn.
    set (f' := if decide (URL_String url ≠ "")
               then <[slug +:+ "." +:+ ext := j]> f else f).
    assert (Hf' : forall k v, f' !! k = Some v <->
              f !! k = Some v \/
              (k = slug +:+ "." +:+ ext /\ v = j /\ URL_String url ≠ "")).
    { intros k v. subst f'. destruct (decide (URL_String url ≠ "")) as [Hne|He].
      - rewrite lookup_insert_Some. split.
        + intros [[<- <-]|[_ Hf]]; [right; auto | left; exact Hf].
        + intros [Hf|(-> & -> & _)]; [|left; auto].
          right. split; [|exact Hf]. intros <-.
          rewrite (Hfree ext) in Hf; [discriminate | left].
      - split; [auto|]. intros [Hf|(_ & _ & Hne)]; [exact Hf | contradiction]. }
    destruct (IH f') as (m & Hm & Hlookup).
    + intros p Hp. apply Hall. right. exact Hp.
    + exact Hnodup.
    + intros ext' Hin'.
      destruct (f' !! (slug +:+ "." +:+ ext')) as [v|] eqn:Hv; [|reflexivity].
      apply Hf' in Hv as [Hv|(Heq & _)].
      * rewrite (Hfree ext') in Hv; [discriminate | right; exact Hin'].
      * apply format_key_inj in Heq. subst ext'. contradiction.
    + exists m. split; [exact Hm|]. intros k v. rewrite Hlookup, Hf'. split.
      * intros [[Hf|(-> & -> & Hne)]|(ext' & Hin' & -> & Hne)].
        -- left. exact Hf.
        -- right. exists ext. split; [left|]. split; [reflexivity|].
           unfold JsonURL_String. rewrite Hj. cbn. congruence.
        -- right. exists ext'. split; [right; exact Hin'|]. auto.
      * intros [Hf|(ext' & Hin' & -> & Hne)]; [left; left; exact Hf|].
        apply elem_of_cons in Hin' as [[= -> ->]|Hin'].
        -- left. right. split; [reflexivity|]. split; [reflexivity|].
           unfold JsonURL_String in Hne. rewrite Hj in Hne. cbn in Hne.
           congruence.
        -- right. exists ext'. auto.
Qed.

Lemma format_links_elem (b : BookDetails) (ext : string) (v : JsonURL) :
  (ext, v) ∈ ((fun p => (p.1, p.2 b)) <$> format_fields) <->
  exists field, (ext, field) ∈ format_fields /\ v = field b.
Proof.
  rewrite list_elem_of_fmap. split.
  - intros ([ext' field] & [= -> ->] & Hin). eauto.
  - intros (field & Hin & ->). exists (ext, field). auto.
Qed.

(** On a [BookDetails] whose seven format fields each wrap a URL, [Files]
    returns, and the map binds [slug.ext] to the link of format [ext] for
    exactly the formats whose link has a non-empty string form. *)
Lemma Files_Ret_lookup (b : BookDetails) :
  (forall ext field, (ext, field) ∈ format_fields -> is_Some (u (field b))) ->
  exists files : gmap string JsonURL,
    BookDetails_Files b = Ret files /\
    forall (name : string) (link : JsonURL),
      files !! name = Some link <->
      exists ext field,
        (ext, field) ∈ format_fields /\
        name = Slug b +:+ "." +:+ ext /\ link = field b /\
        JsonURL_String link ≠ Ret "".
Proof.
  intros Hall.
  destruct (files_from_Ret (Slug b)
              ((fun p => (p.1, p.2 b)) <$> format_fields) ∅)
    as (m & Hm & Hlookup).
  - intros [ext v] [field [Hin ->]]%format_links_elem. cbn. eauto.
  - apply (bool_decide_unpack _). reflexivity.
  - intros ext _. apply lookup_empty.
  - exists m. split; [rewrite Files_as_loop; exact Hm|].
    intros name link. rewrite Hlookup, lookup_empty. split.
    + intros [[=]|(ext & [field [Hin ->]]%format_links_elem & -> & Hne)].
      exists ext, field. auto.
    + intros (ext & field & Hin & -> & -> & Hne). right. exists ext.
      split; [apply format_links_elem; eauto | auto].
Qed.

(** C5: for a [BookDetails] whose seven format fields each wrap a URL,
    [Files] returns a map that binds the name [slug.ext] to the link of
    format [ext] for exactly the formats whose link has a non-empty string
    form, and binds nothing else.  In particular, with slug "foo", a text
    link whose string form is "http://x/a.txt" and the six other links of
    empty string form, the map is exactly that one binding of "foo.txt". *)
Theorem Files_resolves_formats (b : BookDetails) :
  (forall ext field, (ext, field) ∈ format_fields -> is_Some (u (field b))) ->
  (exists files : gmap string JsonURL,
     BookDetails_Files b = Ret files /\
     forall (name : string) (link : JsonURL),
       files !! name = Some link <->
       exists ext field,
         (ext, field) ∈ format_fields /\
         name = Slug b +:+ "." +:+ ext /\ link = field b /\
         JsonURL_String link ≠ Ret "") /\
  (Slug b = "foo" ->
   JsonURL_String (Txt b) = Ret "http://x/a.txt" ->
   JsonURL_String (Xml b) = Ret "" ->
   JsonURL_String (Html b) = Ret "" ->
   JsonURL_String (Fb2 b) = Ret "" ->
   JsonURL_String (Epub b) = Ret "" ->
   JsonURL_String (Mobi b) = Ret "" ->
   JsonURL_String (Pdf b) = Ret "" ->
   BookDetails_Files b = Ret {[ "foo.txt" := Txt b ]}).
Proof.
  intros Hall. split.
  - apply Files_Ret_lookup. exact Hall.
  - intros Hslug Htxt Hxml Hhtml Hfb2 Hepub Hmobi Hpdf.
    unfold BookDetails_Files.
    rewrite Htxt, Hxml, Hhtml, Hfb2, Hepub, Hmobi, Hpdf, Hslug. reflexivity.
Qed.

(** C6: for a [JsonURL] that wraps a URL whose string form survives the
    JSON string codec and is accepted by [url.Parse] with the same string
    form, [MarshalJSON] followed by [UnmarshalJSON] (into any receiver)
    succeeds and gives a value whose string form equals the original's. *)
Theorem JsonURL_round_trip (j j0 : JsonURL) (url : url_URL) :
  u j = Some url ->
  json_string_round_trip (URL_String url) ->
  url_reparses (URL_String url) ->
  exists (b : bytes) (j' : JsonURL),
    JsonURL_MarshalJSON j = Ret (b, None) /\
    JsonURL_UnmarshalJSON j0 b = (j', None) /\
    JsonURL_String j = Ret (URL_String url) /\
    JsonURL_String j' = JsonURL_String j.
Proof.
  intros Hj (b & Hmarshal & Hunmarshal) (url' & Hparse & Hsame).
  exists b, {| u := Some url' |}.
  unfold JsonURL_MarshalJSON, JsonURL_UnmarshalJSON, JsonURL_String.
  rewrite Hj. cbn. rewrite Hmarshal, Hunmarshal, Hparse, Hsame. auto.
Qed.

(** C9: [String] and [MarshalJSON] panic with a nil dereference on a
    [JsonURL] that holds no URL, such as the zero value of a field that was
    never assigned.  [Files] panics exactly when one of the seven format
    fields holds no URL, and returns a map exactly when each of them does. *)
Theorem nil_URL_panics :
  (forall j : JsonURL, u j = None ->
     JsonURL_String j = Panic nil_dereference /\
     JsonURL_MarshalJSON j = Panic nil_dereference) /\
  u zero_JsonURL = None /\
  BookDetails_Files zero_BookDetails = Panic nil_dereference /\
  (forall b : BookDetails,
     BookDetails_Files b = Panic nil_dereference <->
     exists ext field, (ext, field) ∈ format_fields /\ u (field b) = None) /\
  (forall b : BookDetails,
     (exists files, BookDetails_Files b = Ret files) <->
     forall ext field, (ext, field) ∈ format_fields -> is_Some (u (field b))).
Proof.
  assert (Hpanic : forall b : BookDetails,
    (exists ext field, (ext, field) ∈ format_fields /\ u (field b) = None) ->
    BookDetails_Files b = Panic nil_dereference).
  { intros b (ext & field & Hin & Hnil). rewrite Files_as_loop.
    apply files_from_Panic. exists (ext, field b). split; [|exact Hnil].
    apply format_links_elem. eauto. }
  assert (Hret : forall b : BookDetails,
    (forall ext field, (ext, field) ∈ format_fields -> is_Some (u (field b))) ->
    exists files, BookDetails_Files b = Ret files).
  { intros b Hall.
    destruct (Files_Ret_lookup b Hall) as (files & Hfiles & _).
    eauto. }
  assert (Hdec : forall b : BookDetails,
    (exists ext field, (ext, field) ∈ format_fields /\ u (field b) = None) \/
    (forall ext field, (ext, field) ∈ format_fields -> is_Some (u (field b)))).
  { intros b. unfold format_fields.
    destruct (u (Txt b)) eqn:?; [|left; exists "txt", Txt; split; [in_list|done]].
    destruct (u (Xml b)) eqn:?; [|left; exists "xml", Xml; split; [in_list|done]].
    destruct (u (Html b)) eqn:?; [|left; exists "html", Html; split; [in_list|done]].
    destruct (u (Fb2 b)) eqn:?; [|left; exists "fb2", Fb2; split; [in_list|done]].
    destruct (u (Epub b)) eqn:?; [|left; exists "epub", Epub; split; [in_list|done]].
    destruct (u (Mobi b)) eqn:?; [|left; exists "mobi", Mobi; split; [in_list|done]].
    destruct (u (Pdf b)) eqn:?; [|left; exists "pdf", Pdf; split; [in_list|done]].
    right. intros ext field Hin.
    repeat (apply elem_of_cons in Hin as [[= -> ->]|Hin]; [eauto|]).
    inversion Hin. }
  split; [|split; [reflexivity|split; [reflexivity|split]]].
  - intros j Hnil. unfold JsonURL_MarshalJSON, JsonURL_String.
    rewrite Hnil. auto.
  - intros b. split; [|apply Hpanic].
    intros Hp. destruct (Hdec b) as [Hnil|Hall]; [exact Hnil|].
    destruct (Hret b Hall) as (files & Hfiles). congruence.
  - intros b. split; [|apply Hret].
    intros (files & Hfiles). destruct (Hdec b) as [Hnil|Hall]; [|exact Hall].
    rewrite (Hpanic b Hnil) in Hfiles. discriminate.
Qed.

End Pure.

(** ** Properties of the detail fetch *)

Section Details.
Context `{NetURL} `{PathLib} `{!EncodingJSON} `{Outside}.

(** [Details] in terms of the one [cachedFile] call it makes. *)
Lemma Details_run (b : BookEssential) (w : World) :
  BookEssential_Details b w =
  match cachedFile (path_Join [be_Slug b; DetailsFile]) (u (be_Href b)) w with
  | (Ret (content, None), w') =>
      (Ret (set_Slug (be_Slug b) (json_Unmarshal_BookDetails content).1,
            (json_Unmarshal_BookDetails content).2), w')
  | (Ret (content, Some e), w') =>
      (Ret (set_Slug (be_Slug b) zero_BookDetails, Some e), w')
  | (Panic msg, w') => (Panic msg, w')
  | (Exit code, w') => (Exit code, w')
  end.
Proof.
  unfold BookEssential_Details, deferred. rewrite bind_run.
  destruct (cachedFile _ _ w) as [[[content [e|]]|msg|code] w']; try reflexivity.
  rewrite ret_run. destruct (json_Unmarshal_BookDetails content); reflexivity.
Qed.

(** C7: [Details] makes one call of [cachedFile], with the path
    [path.Join(b.Slug, "details.json")] and the URL [b.Href.u]; when that
    call returns bytes without error it decodes them into a
    [BookDetails]; and whatever it returns, the slug of the returned
    details is [b.Slug]: the stamp overwrites whatever slug the decoder had
    put there. *)
Theorem Details_fetches_decodes_and_stamps (b : BookEssential) (w : World) :
  (exists (r : outcome (bytes * option error)) (w' : World),
     cachedFile (path_Join [be_Slug b; "details.json"]) (u (be_Href b)) w
       = (r, w') /\
     match r with
     | Ret (content, None) =>
         exists (decoded : BookDetails) (err : option error),
           json_Unmarshal_BookDetails content = (decoded, err) /\
           BookEssential_Details b w =
             (Ret (set_Slug (be_Slug b) decoded, err), w')
     | Ret (content, Some e) =>
         BookEssential_Details b w =
           (Ret (set_Slug (be_Slug b) zero_BookDetails, Some e), w')
     | Panic msg => BookEssential_Details b w = (Panic msg, w')
     | Exit code => BookEssential_Details b w = (Exit code, w')
     end) /\
  (forall (book : BookDetails) (err : option error) (w' : World),
     BookEssential_Details b w = (Ret (book, err), w') ->
     Slug book = be_Slug b) /\
  (forall (s s' : string) (decoded : BookDetails),
     set_Slug s (set_Slug s' decoded) = set_Slug s decoded).
Proof.
  split; [|split].
  - rewrite Details_run. fold DetailsFile.
    destruct (cachedFile _ _ w) as [[[content [e|]]|msg|code] w'];
      eexists _, _; (split; [reflexivity|]); try reflexivity.
    cbv beta iota.
    destruct (json_Unmarshal_BookDetails content) as [decoded err].
    exists decoded, err. split; reflexivity.
  - intros book err w'. rewrite Details_run.
    destruct (cachedFile _ _ w) as [[[content [e|]]|msg|code] w'']; try discriminate.
    + intros [= <- _ _]. reflexivity.
    + intros [= <- _ _]. reflexivity.
  - intros s s' decoded. reflexivity.
Qed.

(** C10: when [Details] returns an error, the details returned with it
    still carry [b.Slug]; when the error is that of the [cachedFile] call,
    it is returned as it is and every other field of the details is the
    zero value; when the error is that of the decoder, the details are what
    the decoder left, with the slug stamped in. *)
Theorem Details_failure_keeps_slug (b : BookEssential) (w w' : World)
  (book : BookDetails) (e : error) :
  BookEssential_Details b w = (Ret (book, Some e), w') ->
  Slug book = be_Slug b /\
  (forall (content : bytes) (e' : error) (w'' : World),
     cachedFile (path_Join [be_Slug b; DetailsFile]) (u (be_Href b)) w
       = (Ret (content, Some e'), w'') ->
     e = e' /\
     book =
       {| Authors := []; Epochs := []; Kinds := []; Genres := [];
          Slug := be_Slug b; Title := ""; Parent := None; Children := [];
          URL := {| u := None |};
          Txt := {| u := None |}; Xml := {| u := None |};
          Html := {| u := None |}; Fb2 := {| u := None |};
          Epub := {| u := None |}; Mobi := {| u := None |};
          Pdf := {| u := None |} |}) /\
  (forall (content : bytes) (w'' : World),
     cachedFile (path_Join [be_Slug b; DetailsFile]) (u (be_Href b)) w
       = (Ret (content, None), w'') ->
     exists decoded : BookDetails,
       json_Unmarshal_BookDetails content = (decoded, Some e) /\
       book = set_Slug (be_Slug b) decoded).
Proof.
  rewrite Details_run. intros Hrun. split; [|split].
  - destruct (cachedFile _ _ w) as [[[content [e'|]]|msg|code] w''];
      try discriminate; injection Hrun as <- _ _; reflexivity.
  - intros content e' w'' Hcall. rewrite Hcall in Hrun.
    injection Hrun as <- <- _. split; reflexivity.
  - intros content w'' Hcall. rewrite Hcall in Hrun.
    destruct (json_Unmarshal_BookDetails content) as [decoded err].
    cbn in Hrun. injection Hrun as <- -> _. exists decoded. split; reflexivity.
Qed.

End Details.

(** ** Properties of the orchestrator *)

Section ObtainBook.
Context `{NetURL} `{PathLib} `{!EncodingJSON} `{Outside}.

Lemma undisturbed_refl (w : World) : undisturbed w w.
Proof. repeat split. Qed.

Lemma undisturbed_trans (w1 w2 w3 : World) :
  undisturbed w1 w2 -> undisturbed w2 w3 -> undisturbed w1 w3.
Proof.
  intros (Hfs & Hnet & Hoff & Hcalls & Hwrites) (Hfs' & Hnet' & Hoff' & Hcalls' & Hwrites').
  repeat split; congruence.
Qed.

(** Recording a call that is neither a GET nor a write disturbs nothing. *)
Lemma undisturbed_record (e : event) (w : World) :
  is_Get e = false -> is_Write e = false -> undisturbed w (record e w).
Proof.
  intros Hget Hwrite. unfold undisturbed, record; cbn [fs net Offline trace].
  rewrite net_calls_app, fs_writes_app. unfold net_calls, fs_writes. cbn.
  rewrite Hget, Hwrite. cbn. repeat split; lia.
Qed.

(** The loop over files that are all readable: only reads. *)
Lemma obtain_files_cached (slug : string) (entries : list (string * JsonURL))
  (w : World) :
  (forall fileName originUrl, (fileName, originUrl) ∈ entries ->
     readable (fs w) (path_Join [slug; fileName])) ->
  exists w' : World,
    obtain_files slug entries w = (Ret tt, w') /\ undisturbed w w'.
Proof.
  revert w. induction entries as [|[fileName originUrl] rest IH]; intros w Hall.
  - exists w. split; [reflexivity | apply undisturbed_refl].
  - destruct (Hall fileName originUrl) as [content Hread]; [left|].
    cbn [obtain_files]. rewrite bind_run.
    rewrite (cachedFile_local w _ (u originUrl) content None Hread I).
    destruct (IH (record (ReadFile_call (path_Join [slug; fileName])) w))
      as (w' & Hrun & Hquiet).
    + intros fileName' originUrl' Hin. apply (Hall fileName' originUrl').
      right. exact Hin.
    + exists w'. split; [exact Hrun|].
      eapply undisturbed_trans; [|exact Hquiet].
      apply undisturbed_record; reflexivity.
Qed.

(** One run of [ObtainBook] over a populated cache. *)
Lemma ObtainBook_on_populated_cache
  (range_order : gmap string JsonURL -> list (string * JsonURL))
  (b : BookEssential) (w : World) :
  (forall m, range_order m ≡ₚ map_to_list m) ->
  cache_populated (fs w) b ->
  exists (content : bytes) (w' : World),
    fs_read (fs w) (path_Join [be_Slug b; DetailsFile]) = (content, None) /\
    BookEssential_ObtainBook range_order b w =
      (outcome_from_cache (be_Slug b) content, w') /\
    undisturbed w w'.
Proof.
  intros Horder ((e & Hmkdir & Hexist) & content & Hread & Hfiles).
  exists content.
  set (w1 := record (Mkdir_call (be_Slug b) octal_0755) w).
  set (w2 := record (ReadFile_call (path_Join [be_Slug b; DetailsFile])) w1).
  assert (H12 : undisturbed w w2).
  { eapply undisturbed_trans; apply undisturbed_record; reflexivity. }
  unfold BookEssential_ObtainBook, outcome_from_cache.
  rewrite bind_run. unfold os_Mkdir at 1. rewrite Hmkdir.
  rewrite bind_run, Hexist. cbn [negb]. rewrite ret_run.
  rewrite bind_run, Details_run. fold w1.
  rewrite (cachedFile_local w1 _ (u (be_Href b)) content None Hread I). fold w1 w2.
  destruct (json_Unmarshal_BookDetails content) as [decoded [err|]] eqn:Hdec;
    cbn [fst snd].
  - rewrite bind_run. unfold log_Fatal at 1. eexists. split; [exact Hread|].
    split; [reflexivity|].
    eapply undisturbed_trans; [exact H12|]. apply undisturbed_record; reflexivity.
  - rewrite bind_run, ret_run, bind_run. unfold lift at 1.
    destruct (BookDetails_Files (set_Slug (be_Slug b) decoded))
      as [files|msg|code] eqn:Hres; cbn.
    + destruct (obtain_files_cached (be_Slug b) (range_order files) w2)
        as (w3 & Hrun & H23).
      { intros fileName originUrl Hin. rewrite Horder in Hin.
        apply elem_of_map_to_list in Hin.
        exact (Hfiles decoded files fileName originUrl eq_refl Hres Hin). }
      rewrite bind_run, Hrun, ret_run. exists w3. split; [exact Hread|].
      split; [reflexivity|]. eapply undisturbed_trans; eassumption.
    + exists w2. auto.
    + exists w2. auto.
Qed.

(** C8: over a fully populated cache, two calls of [ObtainBook] in a row
    (each with its own order of visiting the map of files) make no network
    call and leave the file system as it was, the second like the first;
    the second call ends as the first did, and the cache is still fully
    populated afterwards. *)
Theorem ObtainBook_idempotent_on_populated_cache
  (range_order1 range_order2 : gmap string JsonURL -> list (string * JsonURL))
  (b : BookEssential) (w : World) :
  (forall m, range_order1 m ≡ₚ map_to_list m) ->
  (forall m, range_order2 m ≡ₚ map_to_list m) ->
  cache_populated (fs w) b ->
  exists (r1 r2 : outcome BookDetails) (w1 w2 : World),
    BookEssential_ObtainBook range_order1 b w = (r1, w1) /\
    BookEssential_ObtainBook range_order2 b w1 = (r2, w2) /\
    r2 = r1 /\
    fs w2 = fs w1 /\ net w2 = net w1 /\
    net_calls (trace w2) = net_calls (trace w1) /\
    fs_writes (trace w2) = fs_writes (trace w1) /\
    undisturbed w w1 /\
    cache_populated (fs w2) b.
Proof.
  intros Horder1 Horder2 Hcache.
  destruct (ObtainBook_on_populated_cache range_order1 b w Horder1 Hcache)
    as (content1 & w1 & Hread1 & Hrun1 & H01).
  assert (Hfs1 : fs w1 = fs w) by apply H01.
  assert (Hcache1 : cache_populated (fs w1) b) by (rewrite Hfs1; exact Hcache).
  destruct (ObtainBook_on_populated_cache range_order2 b w1 Horder2 Hcache1)
    as (content2 & w2 & Hread2 & Hrun2 & H12).
  rewrite Hfs1, Hread1 in Hread2. injection Hread2 as <-.
  destruct H12 as (Hfs2 & Hnet2 & Hoff2 & Hcalls2 & Hwrites2).
  eexists _, _, w1, w2. split; [exact Hrun1|]. split; [exact Hrun2|].
  split; [reflexivity|]. repeat (split; [assumption|]).
  rewrite Hfs2. exact Hcache1.
Qed.

End ObtainBook.

(** ** The statements on concrete inputs *)

Section Examples.
#[local] Existing Instance Demo.url.
#[local] Existing Instance Demo.path.
#[local] Existing Instance Demo.json.
#[local] Existing Instance Demo.outside.

(** A first run, online and from an empty cache: the directory, the
    details and the two available formats are fetched and saved, which
    gives the populated cache used below. *)
Example ObtainBook_first_run :
  exists w' : World,
    BookEssential_ObtainBook Demo.range_order Demo.lorem (Demo.world ∅ false)
      = (Ret (set_Slug "lorem" Demo.lorem_details), w') /\
    fs w' = Demo.cache /\
    net_calls (trace w') = 3 /\ fs_writes (trace w') = 3.
Proof. eexists. split; [vm_compute; reflexivity|]. repeat split. Qed.

(** A second run, offline, over that cache: only reads. *)
Example ObtainBook_second_run_offline :
  BookEssential_ObtainBook Demo.range_order Demo.lorem
    (Demo.world Demo.cache true) =
  (Ret (set_Slug "lorem" Demo.lorem_details),
   @mkWorld Demo.outside Demo.cache Demo.remote true
     [Mkdir_call "lorem" octal_0755; ReadFile_call "lorem/details.json";
      ReadFile_call "lorem/lorem.txt"; ReadFile_call "lorem/lorem.pdf"]).
Proof. vm_compute. reflexivity. Qed.

(** A cache hit: [lorem/lorem.txt] is in the cache. *)
Lemma cachedFile_cache_hit_witness :
  fs_read (fs (Demo.world Demo.cache false)) "lorem/lorem.txt" =
    (list_byte_of_string "Lorem ipsum dolor sit amet", None) /\
  exists w' : World,
    cachedFile "lorem/lorem.txt" None (Demo.world Demo.cache false) =
      (Ret (list_byte_of_string "Lorem ipsum dolor sit amet", None), w') /\
    fs w' = Demo.cache /\ net w' = Demo.remote /\
    trace w' = [ReadFile_call "lorem/lorem.txt"] /\
    net_calls (trace w') = 0 /\ fs_writes (trace w') = 0.
Proof.
  split; [reflexivity|].
  apply (cachedFile_cache_hit (Demo.world Demo.cache false)
           "lorem/lorem.txt" None).
  reflexivity.
Defined.

(** A read error that is not "does not exist": [lorem] is a directory. *)
Lemma cachedFile_read_error_propagates_witness :
  fs_read (fs (Demo.world Demo.cache false)) "lorem" =
    ([], Some (PathError "read" "lorem" EISDIR)) /\
  os_IsNotExist (PathError "read" "lorem" EISDIR) = false /\
  exists w' : World,
    cachedFile "lorem" (Demo.ptr "http://x/lorem") (Demo.world Demo.cache false) =
      (Ret ([], Some (PathError "read" "lorem" EISDIR)), w') /\
    fs w' = Demo.cache /\ net w' = Demo.remote /\
    trace w' = [ReadFile_call "lorem"] /\
    net_calls (trace w') = 0 /\ fs_writes (trace w') = 0.
Proof.
  split; [reflexivity|]. split; [reflexivity|].
  apply (cachedFile_read_error_propagates (Demo.world Demo.cache false)
           "lorem" (Demo.ptr "http://x/lorem")); reflexivity.
Defined.

(** A miss in offline mode: the cache is empty. *)
Lemma cachedFile_offline_miss_witness :
  fs_read (fs (Demo.world ∅ true)) "lorem/details.json" =
    ([], Some (PathError "open" "lorem/details.json" ENOENT)) /\
  os_IsNotExist (PathError "open" "lorem/details.json" ENOENT) = true /\
  Offline (Demo.world ∅ true) = true /\
  exists w' : World,
    cachedFile "lorem/details.json" (Demo.ptr "http://api/lorem/")
      (Demo.world ∅ true) = (Ret ([], Some ErrOffline), w') /\
    ErrOffline <> PathError "open" "lorem/details.json" ENOENT /\
    os_IsNotExist ErrOffline = false /\
    fs w' = ∅ /\ net w' = Demo.remote /\
    trace w' = [ReadFile_call "lorem/details.json"] /\
    net_calls (trace w') = 0 /\ fs_writes (trace w') = 0.
Proof.
  split; [reflexivity|]. split; [reflexivity|]. split; [reflexivity|].
  apply (cachedFile_offline_miss (Demo.world ∅ true) "lorem/details.json"
           (Demo.ptr "http://api/lorem/") []); reflexivity.
Defined.

(** A miss in online mode: the text of "lorem" is fetched and saved. *)
Lemma cachedFile_online_miss_witness :
  fs_read (fs (Demo.world ∅ false)) "lorem.txt" =
    ([], Some (PathError "open" "lorem.txt" ENOENT)) /\
  os_IsNotExist (PathError "open" "lorem.txt" ENOENT) = true /\
  Offline (Demo.world ∅ false) = false /\
  exists w' : World,
    cachedFile "lorem.txt" (Demo.ptr "http://x/lorem.txt") (Demo.world ∅ false) =
      (Ret (list_byte_of_string "Lorem ipsum dolor sit amet", None), w') /\
    fs w' = {[ "lorem.txt" :=
                 Demo.File (list_byte_of_string "Lorem ipsum dolor sit amet") ]} /\
    net w' = Demo.remote /\
    trace w' =
      [ReadFile_call "lorem.txt";
       Log_call "lorem.txt not available offline, downloading";
       Get_call "http://x/lorem.txt";
       WriteFile_call "lorem.txt"
         (list_byte_of_string "Lorem ipsum dolor sit amet") octal_0644;
       Log_call "lorem.txt synced and saved"] /\
    fs_writes (trace w') = 1.
Proof.
  split; [reflexivity|]. split; [reflexivity|]. split; [reflexivity|].
  refine (proj2 (cachedFile_online_miss (Demo.world ∅ false) "lorem.txt"
                   ("http://x/lorem.txt" : @url_URL Demo.url) []
                   (PathError "open" "lorem.txt" ENOENT) _ _ _)
            Demo.remote _ _ _ None _ _ _); reflexivity.
Defined.

(** The file set of details that have a text link only. *)
Lemma Files_resolves_formats_witness :
  (forall ext field, (ext, field) ∈ format_fields ->
     is_Some (u (field Demo.foo_details))) /\
  BookDetails_Files Demo.foo_details =
    Ret {[ "foo.txt" := Demo.link "http://x/a.txt" ]}.
Proof.
  assert (Hall : forall ext field, (ext, field) ∈ format_fields ->
                   is_Some (u (field Demo.foo_details))).
  { intros ext field Hin.
    repeat (apply elem_of_cons in Hin as [[= -> ->]|Hin];
            [eexists; reflexivity|]).
    inversion Hin. }
  split; [exact Hall|].
  apply (proj2 (Files_resolves_formats Demo.foo_details Hall)); reflexivity.
Defined.

(** The round trip of the link "http://x/a.txt". *)
Lemma JsonURL_round_trip_witness :
  u (Demo.link "http://x/a.txt") = Demo.ptr "http://x/a.txt" /\
  json_string_round_trip "http://x/a.txt" /\
  url_reparses "http://x/a.txt" /\
  exists (b : bytes) (j' : JsonURL),
    JsonURL_MarshalJSON (Demo.link "http://x/a.txt") = Ret (b, None) /\
    JsonURL_UnmarshalJSON zero_JsonURL b = (j', None) /\
    JsonURL_String (Demo.link "http://x/a.txt") = Ret "http://x/a.txt" /\
    JsonURL_String j' = JsonURL_String (Demo.link "http://x/a.txt").
Proof.
  assert (Hjson : json_string_round_trip "http://x/a.txt").
  { eexists. split; reflexivity. }
  assert (Hurl : url_reparses "http://x/a.txt").
  { eexists. split; reflexivity. }
  split; [reflexivity|]. split; [exact Hjson|]. split; [exact Hurl|].
  exact (JsonURL_round_trip (Demo.link "http://x/a.txt") zero_JsonURL
           ("http://x/a.txt" : @url_URL Demo.url) eq_refl Hjson Hurl).
Defined.

(** A failed detail fetch: offline, with an empty cache. *)
Lemma Details_failure_keeps_slug_witness :
  BookEssential_Details Demo.lorem (Demo.world ∅ true) =
    (Ret (set_Slug "lorem" zero_BookDetails, Some ErrOffline),
     record (ReadFile_call "lorem/details.json") (Demo.world ∅ true)) /\
  Slug (set_Slug "lorem" (@zero_BookDetails Demo.url)) = be_Slug Demo.lorem.
Proof.
  split; [reflexivity|].
  exact (proj1 (Details_failure_keeps_slug Demo.lorem (Demo.world ∅ true)
                  (record (ReadFile_call "lorem/details.json") (Demo.world ∅ true))
                  (set_Slug "lorem" zero_BookDetails) ErrOffline eq_refl)).
Defined.

(** Two runs over the populated cache of "lorem". *)
Lemma ObtainBook_idempotent_on_populated_cache_witness :
  (forall m, Demo.range_order m ≡ₚ map_to_list m) /\
  cache_populated (fs (Demo.world Demo.cache false)) Demo.lorem /\
  exists (r1 r2 : outcome BookDetails) (w1 w2 : World),
    BookEssential_ObtainBook Demo.range_order Demo.lorem
      (Demo.world Demo.cache false) = (r1, w1) /\
    BookEssential_ObtainBook Demo.range_order Demo.lorem w1 = (r2, w2) /\
    r2 = r1 /\
    fs w2 = fs w1 /\ net w2 = net w1 /\
    net_calls (trace w2) = net_calls (trace w1) /\
    fs_writes (trace w2) = fs_writes (trace w1) /\
    undisturbed (Demo.world Demo.cache false) w1 /\
    cache_populated (fs w2) Demo.lorem.
Proof.
  assert (Horder : forall m, Demo.range_order m ≡ₚ map_to_list m).
  { intros m. reflexivity. }
  assert (Hcache : cache_populated (fs (Demo.world Demo.cache false)) Demo.lorem).
  { split.
    - eexists. split; reflexivity.
    - eexists. split; [reflexivity|].
      intros decoded files fileName originUrl Hdec Hfiles Hlookup.
      injection Hdec as <-. injection Hfiles as <-.
      apply lookup_insert_Some in Hlookup as [[<- _]|[_ Hlookup]];
        [eexists; reflexivity|].
      apply lookup_insert_Some in Hlookup as [[<- _]|[_ Hlookup]];
        [eexists; reflexivity|].
      rewrite lookup_empty in Hlookup. discriminate. }
  split; [exact Horder|]. split; [exact Hcache|].
  exact (ObtainBook_idempotent_on_populated_cache Demo.range_order
           Demo.range_order Demo.lorem (Demo.world Demo.cache false)
           Horder Horder Hcache).
Defined.

End Examples.

(** ** Further properties of the cached-fetch primitive *)

Section CachedFileMore.
Context `{NetURL} `{PathLib} `{!EncodingJSON} `{Outside}.

(** An online miss without a URL: the call of [String] on the nil pointer
    panics, after the log line and before any GET. *)
Lemma cachedFile_miss_nil (w : World) (filePath : string)
  (content : bytes) (e : error) :
  fs_read (fs w) filePath = (content, Some e) ->
  os_IsNotExist e = true ->
  Offline w = false ->
  cachedFile filePath None w = (Panic nil_dereference, after_miss filePath w).
Proof.
  intros Hread Hmiss Hon. unfold cachedFile, after_miss.
  rewrite bind_run. unfold ioutil_ReadFile at 1. rewrite Hread, Hmiss.
  cbn [negb]. rewrite bind_run. unfold read_Offline at 1.
  cbn [Offline record]. rewrite Hon.
  rewrite bind_run. unfold log_Print at 1.
  rewrite bind_run. unfold lift at 1. reflexivity.
Qed.

(** An offline miss. *)
Lemma cachedFile_miss_offline (w : World) (filePath : string)
  (originUrl : option url_URL) (content : bytes) (e : error) :
  fs_read (fs w) filePath = (content, Some e) ->
  os_IsNotExist e = true ->
  Offline w = true ->
  cachedFile filePath originUrl w =
    (Ret ([], Some ErrOffline), record (ReadFile_call filePath) w).
Proof.
  intros Hread Hmiss Hoff. unfold cachedFile.
  rewrite bind_run. unfold ioutil_ReadFile at 1. rewrite Hread, Hmiss.
  cbn [negb]. rewrite bind_run. unfold read_Offline at 1.
  cbn [Offline record]. rewrite Hoff. reflexivity.
Qed.

Lemma read_cases (w : World) (filePath : string) : read_case w filePath.
Proof.
  destruct (fs_read (fs w) filePath) as [content [e|]] eqn:Hread.
  - destruct (os_IsNotExist e) eqn:Hmiss.
    + exact (read_miss w filePath content e Hread Hmiss).
    + exact (read_local w filePath content (Some e) Hread Hmiss).
  - exact (read_local w filePath content None Hread I).
Qed.

Ltac trace_facts :=
  unfold after_get, after_miss, with_net, with_fs, record;
  cbn [fs net Offline trace];
  rewrite <- ?app_assoc; cbn [app];
  rewrite ?net_calls_app, ?fs_writes_app; cbn.

(** X1: online, when the path does not exist and the GET fails,
    [cachedFile] returns the error of the GET (with the bytes the read had
    returned) and writes nothing: the file system is as before. *)
Theorem cachedFile_get_error (w : World) (filePath : string)
  (url : url_URL) (content : bytes) (e e' : error) (n' : Net) :
  fs_read (fs w) filePath = (content, Some e) ->
  os_IsNotExist e = true ->
  Offline w = false ->
  net_get (net w) (URL_String url) = (n', inr e') ->
  exists w' : World,
    cachedFile filePath (Some url) w = (Ret (content, Some e'), w') /\
    fs w' = fs w /\ net w' = n' /\
    trace w' = trace w ++
      [ReadFile_call filePath;
       Log_call (filePath +:+ " not available offline, downloading");
       Get_call (URL_String url)] /\
    fs_writes (trace w') = fs_writes (trace w).
Proof.
  intros Hread Hmiss Hon Hget.
  rewrite (cachedFile_miss_online w filePath url content e Hread Hmiss Hon), Hget.
  eexists. split; [reflexivity|]. trace_facts. repeat split. lia.
Qed.

(** X2: online, when the path does not exist and reading the response
    body fails, [cachedFile] returns the bytes read so far with the error
    and writes nothing: a partial download never reaches the cache. *)
Theorem cachedFile_body_error (w : World) (filePath : string)
  (url : url_URL) (content : bytes) (e e' : error) (n' : Net)
  (resp : Response) (partial : bytes) :
  fs_read (fs w) filePath = (content, Some e) ->
  os_IsNotExist e = true ->
  Offline w = false ->
  net_get (net w) (URL_String url) = (n', inl resp) ->
  ioutil_ReadAll resp = (partial, Some e') ->
  exists w' : World,
    cachedFile filePath (Some url) w = (Ret (partial, Some e'), w') /\
    fs w' = fs w /\ net w' = n' /\
    trace w' = trace w ++
      [ReadFile_call filePath;
       Log_call (filePath +:+ " not available offline, downloading");
       Get_call (URL_String url)] /\
    fs_writes (trace w') = fs_writes (trace w).
Proof.
  intros Hread Hmiss Hon Hget Hbody.
  rewrite (cachedFile_miss_online w filePath url content e Hread Hmiss Hon),
    Hget, Hbody.
  eexists. split; [reflexivity|]. trace_facts. repeat split. lia.
Qed.

(** X3: [cachedFile] never ends the process, and it panics in exactly one
    situation: the path does not exist, the run is online and no URL was
    given.  The panic comes after the log line and before any GET or
    write. *)
Theorem cachedFile_panics_iff (w : World) (filePath : string)
  (originUrl : option url_URL) :
  (forall (code : Z) (w' : World),
     cachedFile filePath originUrl w <> (Exit code, w')) /\
  ((exists (msg : string) (w' : World),
      cachedFile filePath originUrl w = (Panic msg, w')) <->
   (originUrl = None /\ Offline w = false /\
    exists (content : bytes) (e : error),
      fs_read (fs w) filePath = (content, Some e) /\
      os_IsNotExist e = true)) /\
  (forall (msg : string) (w' : World),
     cachedFile filePath originUrl w = (Panic msg, w') ->
     msg = nil_dereference /\ fs w' = fs w /\ net w' = net w /\
     trace w' = trace w ++
       [ReadFile_call filePath;
        Log_call (filePath +:+ " not available offline, downloading")]).
Proof.
  assert (Hcases :
    ((exists r w', cachedFile filePath originUrl w = (Ret r, w')) /\
     ~ (originUrl = None /\ Offline w = false /\
        exists content e, fs_read (fs w) filePath = (content, Some e) /\
                          os_IsNotExist e = true)) \/
    (cachedFile filePath originUrl w =
       (Panic nil_dereference, after_miss filePath w) /\
     originUrl = None /\ Offline w = false /\
     exists content e, fs_read (fs w) filePath = (content, Some e) /\
                       os_IsNotExist e = true)).
  { destruct (read_cases w filePath) as [content err Hread Hlocal|content e Hread Hmiss].
    - left. split; [eexists _, _; apply (cachedFile_local w _ _ _ _ Hread Hlocal)|].
      intros (_ & _ & c & e & Hread' & Hmiss). rewrite Hread in Hread'.
      injection Hread' as _ ->. rewrite Hmiss in Hlocal. discriminate.
    - destruct (Offline w) eqn:Hoff.
      + left.
        split; [eexists _, _; apply (cachedFile_miss_offline w _ _ _ _ Hread Hmiss Hoff)|].
        intros (_ & [=] & _).
      + destruct originUrl as [url|].
        * left.
          rewrite (cachedFile_miss_online w filePath url content e Hread Hmiss Hoff).
          destruct (net_get (net w) (URL_String url)) as [n [resp|e']].
          -- destruct (ioutil_ReadAll resp) as [body [e'|]].
             ++ split; [eexists _, _; reflexivity|]. intros ([=] & _).
             ++ destruct (fs_write (fs w) filePath body octal_0644) as [f werr].
                split; [eexists _, _; reflexivity|]. intros ([=] & _).
          -- split; [eexists _, _; reflexivity|]. intros ([=] & _).
        * right. split; [apply (cachedFile_miss_nil w _ _ _ Hread Hmiss Hoff)|].
          split; [reflexivity|]. split; [reflexivity|]. exists content, e. auto. }
  split; [|split].
  - intros code w' Hrun.
    destruct Hcases as [((r & w'' & Hret) & _)|(Hpanic & _)]; congruence.
  - split.
    + intros (msg & w' & Hrun).
      destruct Hcases as [((r & w'' & Hret) & _)|(_ & Hwhy)]; [congruence | exact Hwhy].
    + intros Hwhy.
      destruct Hcases as [(_ & Hnot)|(Hpanic & _)]; [tauto | eauto].
  - intros msg w' Hrun.
    destruct Hcases as [((r & w'' & Hret) & _)|(Hpanic & _)]; [congruence|].
    rewrite Hpanic in Hrun. injection Hrun as <- <-.
    trace_facts. auto.
Qed.

(** In offline mode a call of [cachedFile] is its read and nothing more. *)
Lemma cachedFile_offline_run (w : World) (filePath : string)
  (originUrl : option url_URL) :
  Offline w = true ->
  exists r : bytes * option error,
    cachedFile filePath originUrl w =
      (Ret r, record (ReadFile_call filePath) w) /\
    (r = fs_read (fs w) filePath \/ r = ([], Some ErrOffline)).
Proof.
  intros Hoff.
  destruct (read_cases w filePath) as [content err Hread Hlocal|content e Hread Hmiss].
  - exists (content, err).
    split; [apply (cachedFile_local w _ _ _ _ Hread Hlocal) | left; congruence].
  - exists ([], Some ErrOffline).
    split; [apply (cachedFile_miss_offline w _ _ _ _ Hread Hmiss Hoff) | right; reflexivity].
Qed.

(** X4: in offline mode [cachedFile] never fetches, whatever the path, the
    URL (even none) and the state of the file system: it returns, its only
    call is the read, and what it returns is either what the read returned
    or no bytes with [ErrOffline]. *)
Theorem cachedFile_offline_never_fetches (w : World) (filePath : string)
  (originUrl : option url_URL) :
  Offline w = true ->
  exists (r : bytes * option error) (w' : World),
    cachedFile filePath originUrl w = (Ret r, w') /\
    (r = fs_read (fs w) filePath \/ r = ([], Some ErrOffline)) /\
    fs w' = fs w /\ net w' = net w /\
    trace w' = trace w ++ [ReadFile_call filePath] /\
    net_calls (trace w') = net_calls (trace w) /\
    fs_writes (trace w') = fs_writes (trace w).
Proof.
  intros Hoff.
  destruct (cachedFile_offline_run w filePath originUrl Hoff) as (r & Hrun & Hr).
  exists r, (record (ReadFile_call filePath) w).
  split; [exact Hrun|]. split; [exact Hr|].
  trace_facts. repeat split; lia.
Qed.

Ltac only_write_at :=
  let Hin := fresh "Hin" in
  intros ? ? ? Hin;
  repeat (apply elem_of_cons in Hin as [Hin|Hin];
          [first [discriminate Hin | injection Hin as -> _ ->; auto]|]);
  inversion Hin.

Ltac footprint_done :=
  split; [first [reflexivity | assumption]|]; split; [reflexivity|];
  split; [cbn; lia|]; split; [cbn; lia|]; split; [only_write_at|];
  split; cbn; intros; first [reflexivity | lia | discriminate].

(** Every call of [cachedFile], by cases: what it ends with and what it
    leaves in the trace. *)
Lemma cachedFile_effects (w : World) (filePath : string)
  (originUrl : option url_URL) :
  exists (o : outcome (bytes * option error)) (w' : World)
         (evs : list event),
    cachedFile filePath originUrl w = (o, w') /\
    match o with
    | Ret _ => True
    | Panic msg => msg = nil_dereference
    | Exit _ => False
    end /\
    Offline w' = Offline w /\
    trace w' = trace w ++ ReadFile_call filePath :: evs /\
    net_calls evs <= 1 /\ fs_writes evs <= net_calls evs /\
    (forall path data perm, WriteFile_call path data perm ∈ evs ->
       path = filePath /\ perm = octal_0644) /\
    (fs_writes evs = 0 -> fs w' = fs w) /\
    (net_calls evs = 0 -> net w' = net w).
Proof.
  destruct (read_cases w filePath) as [content err Hread Hlocal|content e Hread Hmiss].
  - rewrite (cachedFile_local w _ originUrl _ _ Hread Hlocal).
    eexists _, _, []. split; [reflexivity|]. split; [exact I || reflexivity|]. trace_facts.
    footprint_done.
  - destruct (Offline w) eqn:Hoff.
    + rewrite (cachedFile_miss_offline w _ originUrl _ _ Hread Hmiss Hoff).
      eexists _, _, []. split; [reflexivity|]. split; [exact I || reflexivity|]. trace_facts.
      footprint_done.
    + destruct originUrl as [url|].
      * rewrite (cachedFile_miss_online w filePath url content e Hread Hmiss Hoff).
        destruct (net_get (net w) (URL_String url)) as [n [resp|e']].
        -- destruct (ioutil_ReadAll resp) as [body [e'|]].
           ++ eexists _, _, [_; _]. split; [reflexivity|]. split; [exact I || reflexivity|]. trace_facts.
              footprint_done.
           ++ destruct (fs_write (fs w) filePath body octal_0644) as [f werr].
              eexists _, _, [_; _; _; _]. split; [reflexivity|]. split; [exact I || reflexivity|]. trace_facts.
              footprint_done.
        -- eexists _, _, [_; _]. split; [reflexivity|]. split; [exact I || reflexivity|]. trace_facts.
           footprint_done.
      * rewrite (cachedFile_miss_nil w _ _ _ Hread Hmiss Hoff).
        eexists _, _, [_]. split; [reflexivity|]. split; [exact I || reflexivity|]. trace_facts.
        footprint_done.
Qed.


(** X6: a fetched file is served from the cache afterwards.  When an
    online miss has fetched and written the body, and the file system
    reads back what was written, the next call of [cachedFile] on the path
    (with any URL, even none, online or not) returns the same bytes with
    no GET and no write. *)
Theorem cachedFile_then_cached (w : World) (filePath : string)
  (url : url_URL) (originUrl2 : option url_URL)
  (content : bytes) (e : error) (n' : Net) (resp : Response)
  (body : bytes) (f' : FS) :
  fs_read (fs w) filePath = (content, Some e) ->
  os_IsNotExist e = true ->
  Offline w = false ->
  net_get (net w) (URL_String url) = (n', inl resp) ->
  ioutil_ReadAll resp = (body, None) ->
  fs_write (fs w) filePath body octal_0644 = (f', None) ->
  fs_read f' filePath = (body, None) ->
  exists w1 w2 : World,
    cachedFile filePath (Some url) w = (Ret (body, None), w1) /\
    cachedFile filePath originUrl2 w1 = (Ret (body, None), w2) /\
    fs w2 = fs w1 /\ net w2 = net w1 /\
    net_calls (trace w2) = net_calls (trace w1) /\
    fs_writes (trace w2) = fs_writes (trace w1).
Proof.
  intros Hread Hmiss Hon Hget Hbody Hwrite Hback.
  rewrite (cachedFile_miss_online w filePath url content e Hread Hmiss Hon),
    Hget, Hbody, Hwrite.
  eexists _, _. split; [reflexivity|].
  split; [apply cachedFile_local; [exact Hback | exact I]|].
  trace_facts. repeat split; lia.
Qed.

End CachedFileMore.

(** ** Further properties of the detail fetch *)

Section DetailsMore.
Context `{NetURL} `{PathLib} `{!EncodingJSON} `{Outside}.

(** [Details] over a [details.json] that is in the cache. *)
Lemma Details_cached (b : BookEssential) (w : World) (content : bytes) :
  fs_read (fs w) (path_Join [be_Slug b; DetailsFile]) = (content, None) ->
  BookEssential_Details b w =
    (Ret (set_Slug (be_Slug b) (json_Unmarshal_BookDetails content).1,
          (json_Unmarshal_BookDetails content).2),
     record (ReadFile_call (path_Join [be_Slug b; DetailsFile])) w).
Proof.
  intros Hread. rewrite Details_run.
  rewrite (cachedFile_local w _ (u (be_Href b)) content None Hread I).
  reflexivity.
Qed.

(** X7: a cached [details.json] that does not decode is never fetched
    again: [Details] returns the decoder's error (with the slug stamped into
    what the decoder left), makes no GET and no write, and leaves the file
    where it is, so that the next call fails in the same way, online or
    offline. *)
Theorem Details_corrupt_cache_is_permanent (b : BookEssential) (w : World)
  (content : bytes) (decoded : BookDetails) (e : error) :
  fs_read (fs w) (path_Join [be_Slug b; DetailsFile]) = (content, None) ->
  json_Unmarshal_BookDetails content = (decoded, Some e) ->
  exists w1 w2 : World,
    BookEssential_Details b w =
      (Ret (set_Slug (be_Slug b) decoded, Some e), w1) /\
    BookEssential_Details b w1 =
      (Ret (set_Slug (be_Slug b) decoded, Some e), w2) /\
    undisturbed w w1 /\ undisturbed w1 w2.
Proof.
  intros Hread Hdec.
  eexists _, _. split; [|split].
  - rewrite (Details_cached b w content Hread), Hdec. reflexivity.
  - rewrite (Details_cached b (record _ w) content Hread), Hdec. reflexivity.
  - split; apply undisturbed_record; reflexivity.
Qed.

(** X8: [Details] writes the response to the cache before it decodes it.
    Online, when [details.json] does not exist, the GET succeeds and the
    body is written, a body that does not decode is in the cache all the
    same; [Details] returns the decoder's error.  If the file system reads
    back what was written, the next call finds that body in the cache and
    fails in the same way without any GET. *)
Theorem Details_caches_before_decoding (b : BookEssential) (w : World)
  (url : url_URL) (content : bytes) (e : error) (n' : Net) (resp : Response)
  (body : bytes) (f' : FS) (decoded : BookDetails) (e' : error) :
  u (be_Href b) = Some url ->
  fs_read (fs w) (path_Join [be_Slug b; DetailsFile]) = (content, Some e) ->
  os_IsNotExist e = true ->
  Offline w = false ->
  net_get (net w) (URL_String url) = (n', inl resp) ->
  ioutil_ReadAll resp = (body, None) ->
  fs_write (fs w) (path_Join [be_Slug b; DetailsFile]) body octal_0644
    = (f', None) ->
  json_Unmarshal_BookDetails body = (decoded, Some e') ->
  exists w1 : World,
    BookEssential_Details b w =
      (Ret (set_Slug (be_Slug b) decoded, Some e'), w1) /\
    fs w1 = f' /\
    WriteFile_call (path_Join [be_Slug b; DetailsFile]) body octal_0644
      ∈ trace w1 /\
    (fs_read f' (path_Join [be_Slug b; DetailsFile]) = (body, None) ->
     exists w2 : World,
       BookEssential_Details b w1 =
         (Ret (set_Slug (be_Slug b) decoded, Some e'), w2) /\
       undisturbed w1 w2).
Proof.
  intros Hhref Hread Hmiss Hon Hget Hbody Hwrite Hdec.
  eexists. split; [|split; [|split]].
  - rewrite Details_run, Hhref.
    rewrite (cachedFile_miss_online w _ url content e Hread Hmiss Hon),
      Hget, Hbody, Hwrite, Hdec. reflexivity.
  - reflexivity.
  - unfold after_get, with_net, with_fs, record; cbn [trace].
    rewrite !elem_of_app, !list_elem_of_singleton. auto.
  - intros Hback. eexists. split.
    + match goal with
      | |- context [BookEssential_Details b ?w1] =>
          rewrite (Details_cached b w1 body Hback), Hdec
      end.
      reflexivity.
    + apply undisturbed_record; reflexivity.
Qed.

End DetailsMore.

(** ** Further properties of the orchestrator *)

Section ObtainBookMore.
Context `{NetURL} `{PathLib} `{!EncodingJSON} `{Outside}.

(** [ObtainBook] by the answer of [os.Mkdir]. *)
Lemma ObtainBook_run
  (range_order : gmap string JsonURL -> list (string * JsonURL))
  (b : BookEssential) (w : World) :
  BookEssential_ObtainBook range_order b w =
  match fs_mkdir (fs w) (be_Slug b) octal_0755 with
  | inl f =>
      obtain_in_dir range_order b
        (with_fs f (record (Mkdir_call (be_Slug b) octal_0755) w))
  | inr e =>
      if os_IsExist e
      then obtain_in_dir range_order b
             (record (Mkdir_call (be_Slug b) octal_0755) w)
      else (Exit 1, record (Log_call (Error e))
                      (record (Mkdir_call (be_Slug b) octal_0755) w))
  end.
Proof.
  unfold BookEssential_ObtainBook, obtain_in_dir.
  rewrite bind_run. unfold os_Mkdir at 1.
  destruct (fs_mkdir (fs w) (be_Slug b) octal_0755) as [f|e].
  - rewrite bind_run, ret_run. reflexivity.
  - rewrite bind_run. destruct (os_IsExist e); cbn [negb].
    + rewrite ret_run. reflexivity.
    + reflexivity.
Qed.

(** X9: when the directory cannot be created for a reason other than
    "file exists", [ObtainBook] ends the process with status 1 right after
    logging that error: no file is read, nothing is fetched or written. *)
Theorem ObtainBook_mkdir_failure_is_fatal
  (range_order : gmap string JsonURL -> list (string * JsonURL))
  (b : BookEssential) (w : World) (e : error) :
  fs_mkdir (fs w) (be_Slug b) octal_0755 = inr e ->
  os_IsExist e = false ->
  exists w' : World,
    BookEssential_ObtainBook range_order b w = (Exit 1, w') /\
    fs w' = fs w /\ net w' = net w /\
    trace w' = trace w ++
      [Mkdir_call (be_Slug b) octal_0755; Log_call (Error e)].
Proof.
  intros Hmkdir Hother. rewrite ObtainBook_run, Hmkdir, Hother.
  eexists. split; [reflexivity|].
  unfold record; cbn [fs net trace]. rewrite <- app_assoc. auto.
Qed.

(** Offline, the loop over the files only reads. *)
Lemma obtain_files_offline (slug : string)
  (entries : list (string * JsonURL)) (w : World) :
  Offline w = true ->
  exists (o : outcome unit) (w' : World),
    obtain_files slug entries w = (o, w') /\ undisturbed w w'.
Proof.
  revert w. induction entries as [|[fileName originUrl] rest IH]; intros w Hoff.
  - exists (Ret tt), w. split; [reflexivity | apply undisturbed_refl].
  - cbn [obtain_files]. rewrite bind_run.
    destruct (cachedFile_offline_run w (path_Join [slug; fileName])
                (u originUrl) Hoff) as ([content err] & Hrun & _).
    rewrite Hrun.
    assert (Hread : undisturbed w
              (record (ReadFile_call (path_Join [slug; fileName])) w))
      by (apply undisturbed_record; reflexivity).
    destruct err as [e|].
    + eexists _, _. split; [reflexivity|].
      eapply undisturbed_trans; [exact Hread|].
      apply undisturbed_record; reflexivity.
    + destruct (IH (record (ReadFile_call (path_Join [slug; fileName])) w) Hoff)
        as (o & w' & Hrest & Hquiet).
      exists o, w'. split; [exact Hrest|].
      eapply undisturbed_trans; eassumption.
Qed.

Lemma obtain_in_dir_offline
  (range_order : gmap string JsonURL -> list (string * JsonURL))
  (b : BookEssential) (w : World) :
  Offline w = true ->
  exists (o : outcome BookDetails) (w' : World),
    obtain_in_dir range_order b w = (o, w') /\ undisturbed w w'.
Proof.
  intros Hoff. unfold obtain_in_dir.
  rewrite bind_run, Details_run.
  destruct (cachedFile_offline_run w (path_Join [be_Slug b; DetailsFile])
              (u (be_Href b)) Hoff) as ([content err] & Hrun & _).
  rewrite Hrun.
  set (w1 := record (ReadFile_call (path_Join [be_Slug b; DetailsFile])) w).
  assert (H01 : undisturbed w w1) by (apply undisturbed_record; reflexivity).
  assert (Hfatal : forall e book,
    exists o w',
      ((match Some e with
        | Some e => log_Fatal (Error e)
        | None => mret tt
        end;;
        files ← lift (BookDetails_Files book);
        obtain_files (be_Slug b) (range_order files);;
        mret book) : M BookDetails) w1 = (o, w') /\ undisturbed w w').
  { intros e book. rewrite bind_run. eexists _, _. split; [reflexivity|].
    eapply undisturbed_trans; [exact H01|].
    apply undisturbed_record; reflexivity. }
  destruct err as [e|]; [apply Hfatal|].
  destruct (json_Unmarshal_BookDetails content) as [decoded [e|]];
    cbn [fst snd]; [apply Hfatal|].
  rewrite bind_run, ret_run, bind_run. unfold lift at 1.
  destruct (BookDetails_Files (set_Slug (be_Slug b) decoded)) as [files|msg|code].
  - destruct (obtain_files_offline (be_Slug b) (range_order files) w1 Hoff)
      as (o & w' & Hrun' & H1').
    rewrite bind_run, Hrun'.
    assert (H0' : undisturbed w w') by (eapply undisturbed_trans; eassumption).
    destruct o as [[]|msg|code]; eexists _, _; (split; [reflexivity | exact H0']).
  - eexists _, _. split; [reflexivity | exact H01].
  - eexists _, _. split; [reflexivity | exact H01].
Qed.

(** Offline, [ObtainBook] is a [Mkdir] and reads. *)
Lemma ObtainBook_offline_run
  (range_order : gmap string JsonURL -> list (string * JsonURL))
  (b : BookEssential) (w : World) :
  Offline w = true ->
  exists (o : outcome BookDetails) (w' : World),
    BookEssential_ObtainBook range_order b w = (o, w') /\
    no_fetch w w' /\
    fs w' = match fs_mkdir (fs w) (be_Slug b) octal_0755 with
            | inl f => f
            | inr _ => fs w
            end.
Proof.
  intros Hoff. rewrite ObtainBook_run.
  assert (Hstep : forall w1 : World,
    Offline w1 = true -> no_fetch w w1 ->
    exists o w',
      obtain_in_dir range_order b w1 = (o, w') /\
      no_fetch w w' /\ fs w' = fs w1).
  { intros w1 Hoff1 (Hnet & Hflag & Hcalls & Hwrites).
    destruct (obtain_in_dir_offline range_order b w1 Hoff1)
      as (o & w' & Hrun & Hfs' & Hnet' & Hflag' & Hcalls' & Hwrites').
    exists o, w'. split; [exact Hrun|]. split; [|exact Hfs'].
    repeat split; congruence. }
  assert (Hmk : no_fetch w (record (Mkdir_call (be_Slug b) octal_0755) w)).
  { unfold no_fetch, record; cbn [net Offline trace].
    rewrite net_calls_app, fs_writes_app. cbn. repeat split; lia. }
  destruct (fs_mkdir (fs w) (be_Slug b) octal_0755) as [f|e].
  - exact (Hstep (with_fs f (record (Mkdir_call (be_Slug b) octal_0755) w))
             Hoff Hmk).
  - destruct (os_IsExist e).
    + exact (Hstep (record (Mkdir_call (be_Slug b) octal_0755) w) Hoff Hmk).
    + eexists _, _. split; [reflexivity|]. split; [|reflexivity].
      unfold no_fetch, record; cbn [net Offline trace].
      rewrite !net_calls_app, !fs_writes_app. cbn. repeat split; lia.
Qed.

(** X10: in offline mode [ObtainBook] fetches nothing: no GET and no file
    write, whatever the state of the cache.  The one change it can make to
    the file system is the directory of the work, which it creates even
    offline. *)
Theorem ObtainBook_offline_never_fetches
  (range_order : gmap string JsonURL -> list (string * JsonURL))
  (b : BookEssential) (w : World) :
  Offline w = true ->
  exists (o : outcome BookDetails) (w' : World),
    BookEssential_ObtainBook range_order b w = (o, w') /\
    no_fetch w w' /\
    fs w' = match fs_mkdir (fs w) (be_Slug b) octal_0755 with
            | inl f => f
            | inr _ => fs w
            end.
Proof. exact (ObtainBook_offline_run range_order b w). Qed.

(** [Files] returns or panics with a nil dereference. *)
Lemma files_from_end (slug : string) (links : list (string * JsonURL))
  (f : gmap string JsonURL) :
  abnormal_end (files_from slug links f) /\
  forall code, files_from slug links f <> Exit code.
Proof.
  revert f. induction links as [|[ext j] rest IH]; intros f.
  - split; [exact I | discriminate].
  - cbn [files_from]. unfold JsonURL_String.
    destruct (u j) as [url|]; cbn; [apply IH|].
    split; [reflexivity | discriminate].
Qed.

Lemma Files_end (b : BookDetails) :
  abnormal_end (BookDetails_Files b) /\
  forall code, BookDetails_Files b <> Exit code.
Proof. rewrite Files_as_loop. apply files_from_end. Qed.

(** The loop over the files, by how it ends: when it returns, every entry
    has been looked up in the cache. *)
Lemma obtain_files_end (slug : string) (entries : list (string * JsonURL))
  (w w' : World) (o : outcome unit) :
  obtain_files slug entries w = (o, w') ->
  trace w `prefix_of` trace w' /\
  match o with
  | Ret _ =>
      forall fileName originUrl, (fileName, originUrl) ∈ entries ->
        ReadFile_call (path_Join [slug; fileName]) ∈ trace w'
  | Panic msg => msg = nil_dereference
  | Exit code => code = 1%Z
  end.
Proof.
  revert w. induction entries as [|[fileName originUrl] rest IH]; intros w.
  - intros [= <- <-]. split; [reflexivity|]. intros ? ? Hin. inversion Hin.
  - cbn [obtain_files]. rewrite bind_run.
    destruct (cachedFile_effects w (path_Join [slug; fileName]) (u originUrl))
      as (o1 & w1 & evs & Hrun & Hend & _ & Htrace & _).
    rewrite Hrun.
    assert (Hpre : trace w `prefix_of` trace w1).
    { rewrite Htrace. apply prefix_app_r. reflexivity. }
    destruct o1 as [[content [e|]]|msg|code].
    + intros [= <- <-]. split; [|reflexivity].
      etransitivity; [exact Hpre|]. apply prefix_app_r. reflexivity.
    + intros Hrest. destruct (IH w1 Hrest) as [Hpre' Hend'].
      split; [etransitivity; eassumption|].
      destruct o as [[]|msg|code]; try exact Hend'.
      intros fileName' originUrl' [[= -> ->]|Hin]%elem_of_cons.
      * destruct Hpre' as [k ->]. rewrite Htrace.
        rewrite !elem_of_app, elem_of_cons. auto.
      * exact (Hend' fileName' originUrl' Hin).
    + intros [= <- <-]. split; [exact Hpre | exact Hend].
    + destruct Hend.
Qed.

Lemma obtain_in_dir_end
  (range_order : gmap string JsonURL -> list (string * JsonURL))
  (b : BookEssential) (w w' : World) (o : outcome BookDetails) :
  (forall m, range_order m ≡ₚ map_to_list m) ->
  obtain_in_dir range_order b w = (o, w') ->
  trace w `prefix_of` trace w' /\
  match o with
  | Ret book =>
      Slug book = be_Slug b /\
      ReadFile_call (path_Join [be_Slug b; DetailsFile]) ∈ trace w' /\
      exists files : gmap string JsonURL,
        BookDetails_Files book = Ret files /\
        forall fileName originUrl, files !! fileName = Some originUrl ->
          ReadFile_call (path_Join [be_Slug b; fileName]) ∈ trace w'
  | Panic msg => msg = nil_dereference
  | Exit code => code = 1%Z
  end.
Proof.
  intros Horder. unfold obtain_in_dir. rewrite bind_run, Details_run.
  destruct (cachedFile_effects w (path_Join [be_Slug b; DetailsFile])
              (u (be_Href b)))
    as (o1 & w1 & evs & Hrun & Hend & _ & Htrace & _).
  rewrite Hrun.
  assert (Hpre : trace w `prefix_of` trace w1).
  { rewrite Htrace. apply prefix_app_r. reflexivity. }
  assert (Hfatal : forall e book o w',
    ((match Some e with
      | Some e => log_Fatal (Error e)
      | None => mret tt
      end;;
      files ← lift (BookDetails_Files book);
      obtain_files (be_Slug b) (range_order files);;
      mret book) : M BookDetails) w1 = (o, w') ->
    trace w `prefix_of` trace w' /\ o = Exit 1).
  { intros e book o0 w0. rewrite bind_run. intros [= <- <-].
    split; [|reflexivity].
    etransitivity; [exact Hpre|]. apply prefix_app_r. reflexivity. }
  destruct o1 as [[content [e|]]|msg|code].
  - intros [Hpre' ->]%Hfatal. split; [exact Hpre' | reflexivity].
  - destruct (json_Unmarshal_BookDetails content) as [decoded [e|]];
      cbn [fst snd].
    + intros [Hpre' ->]%Hfatal. split; [exact Hpre' | reflexivity].
    + rewrite bind_run, ret_run, bind_run. unfold lift at 1.
      pose proof (Files_end (set_Slug (be_Slug b) decoded))
        as [Hfiles Hnoexit].
      destruct (BookDetails_Files (set_Slug (be_Slug b) decoded))
        as [files|msg|code] eqn:Hres.
      * rewrite bind_run.
        destruct (obtain_files (be_Slug b) (range_order files) w1)
          as [o2 w2] eqn:Hloop.
        destruct (obtain_files_end _ _ _ _ _ Hloop) as [Hpre2 Hend2].
        destruct o2 as [[]|msg|code]; intros [= <- <-];
          (split; [etransitivity; eassumption|]); try exact Hend2.
        split; [reflexivity|]. split.
        -- destruct Hpre2 as [k ->]. rewrite Htrace.
           rewrite !elem_of_app, elem_of_cons. auto.
        -- exists files. split; [exact Hres|].
           intros fileName originUrl Hlookup. apply (Hend2 fileName originUrl).
           rewrite Horder. apply elem_of_map_to_list. exact Hlookup.
      * intros [= <- <-]. split; [exact Hpre | exact Hfiles].
      * destruct (Hnoexit code eq_refl).
  - intros [= <- <-]. split; [exact Hpre | exact Hend].
  - destruct Hend.
Qed.

(** X11: how [ObtainBook] can end.  It returns only after the directory
    was settled, [details.json] was looked up and every file that the
    details resolve to was looked up in the cache; the details it returns
    carry the slug of the summary.  Otherwise it panics with a nil dereference or ends the
    process with status 1. *)
Theorem ObtainBook_ends
  (range_order : gmap string JsonURL -> list (string * JsonURL))
  (b : BookEssential) (w w' : World) (o : outcome BookDetails) :
  (forall m, range_order m ≡ₚ map_to_list m) ->
  BookEssential_ObtainBook range_order b w = (o, w') ->
  match o with
  | Ret book =>
      Slug book = be_Slug b /\
      Mkdir_call (be_Slug b) octal_0755 ∈ trace w' /\
      ReadFile_call (path_Join [be_Slug b; DetailsFile]) ∈ trace w' /\
      exists files : gmap string JsonURL,
        BookDetails_Files book = Ret files /\
        forall fileName originUrl, files !! fileName = Some originUrl ->
          ReadFile_call (path_Join [be_Slug b; fileName]) ∈ trace w'
  | Panic msg => msg = nil_dereference
  | Exit code => code = 1%Z
  end.
Proof.
  intros Horder. rewrite ObtainBook_run.
  assert (Hstep : forall w1 : World,
    Mkdir_call (be_Slug b) octal_0755 ∈ trace w1 ->
    obtain_in_dir range_order b w1 = (o, w') ->
    match o with
    | Ret book =>
        Slug book = be_Slug b /\
        Mkdir_call (be_Slug b) octal_0755 ∈ trace w' /\
        ReadFile_call (path_Join [be_Slug b; DetailsFile]) ∈ trace w' /\
        exists files : gmap string JsonURL,
          BookDetails_Files book = Ret files /\
          forall fileName originUrl, files !! fileName = Some originUrl ->
            ReadFile_call (path_Join [be_Slug b; fileName]) ∈ trace w'
    | Panic msg => msg = nil_dereference
    | Exit code => code = 1%Z
    end).
  { intros w1 Hmk Hrun.
    destruct (obtain_in_dir_end range_order b w1 w' o Horder Hrun)
      as [[k Hk] Hend].
    destruct o as [book|msg|code]; try exact Hend.
    destruct Hend as (Hslug & Hdetails & Hfiles).
    split; [exact Hslug|]. split; [|split; assumption].
    rewrite Hk, elem_of_app. auto. }
  assert (Hmk : Mkdir_call (be_Slug b) octal_0755
                  ∈ trace (record (Mkdir_call (be_Slug b) octal_0755) w)).
  { unfold record; cbn [trace]. rewrite elem_of_app, list_elem_of_singleton. auto. }
  destruct (fs_mkdir (fs w) (be_Slug b) octal_0755) as [f|e].
  - exact (Hstep (with_fs f (record (Mkdir_call (be_Slug b) octal_0755) w)) Hmk).
  - destruct (os_IsExist e).
    + exact (Hstep (record (Mkdir_call (be_Slug b) octal_0755) w) Hmk).
    + intros [= <- <-]. reflexivity.
Qed.

End ObtainBookMore.

(** ** Further properties of the URL codec and of file-set resolution *)

Section PureMore.
Context `{NetURL} `{PathLib} `{!EncodingJSON} `{Outside}.

Lemma count_available_cons (j : JsonURL) (links : list JsonURL) (url : url_URL) :
  u j = Some url ->
  count_available (j :: links) =
  (if decide (URL_String url ≠ "") then 1 else 0) + count_available links.
Proof.
  intros Hj. unfold count_available, JsonURL_String. cbn [List.filter].
  rewrite Hj. cbn [ptr_String].
  destruct (decide (URL_String url ≠ "")) as [Hne|He].
  - apply String.eqb_neq in Hne. rewrite Hne. reflexivity.
  - destruct (String.eqb_spec (URL_String url) "") as [Heq|Hne]; [reflexivity|].
    contradiction.
Qed.

(** The loop adds one entry per link with a non-empty string form. *)
Lemma files_from_size (slug : string) (links : list (string * JsonURL))
  (f : gmap string JsonURL) :
  (forall p, p ∈ links -> is_Some (u p.2)) ->
  NoDup links.*1 ->
  (forall ext, ext ∈ links.*1 -> f !! (slug +:+ "." +:+ ext) = None) ->
  exists m : gmap string JsonURL,
    files_from slug links f = Ret m /\
    size m = size f + count_available links.*2.
Proof.
  revert f. induction links as [|[ext j] rest IH]; intros f Hall Hnodup Hfree.
  - exists f. split; [reflexivity|]. cbn. lia.
  - cbn [fmap list_fmap fst snd] in Hnodup, Hfree |- *.
    apply NoDup_cons in Hnodup as [Hext Hnodup].
    destruct (Hall (ext, j)) as [url Hj]; [left|]. cbn in Hj.
    cbn [files_from]. unfold JsonURL_String at 1. rewrite Hj. cbn [ptr_String mbind outcome_bind].
    rewrite (count_available_cons j _ url Hj).
    set (f' := if decide (URL_String url ≠ "")
               then <[slug +:+ "." +:+ ext := j]> f else f).
    destruct (IH f') as (m & Hm & Hsize).
    + intros p Hp. apply Hall. right. exact Hp.
    + exact Hnodup.
    + intros ext' Hin'. subst f'.
      assert (Hf : f !! (slug +:+ "." +:+ ext') = None)
        by (apply Hfree; right; exact Hin').
      destruct (decide (URL_String url ≠ "")); [|exact Hf].
      rewrite lookup_insert_ne; [exact Hf|].
      intros Heq%format_key_inj. subst ext'. contradiction.
    + exists m. split; [exact Hm|]. rewrite Hsize. subst f'.
      destruct (decide (URL_String url ≠ "")); [|lia].
      rewrite map_size_insert_None; [lia|]. apply Hfree. left.
Qed.

(** X12: the number of files [Files] resolves is the number of formats
    whose link has a non-empty string form: no two formats share a file
    name, so at most seven files, and none when every link is empty. *)
Theorem Files_size (b : BookDetails) :
  (forall ext field, (ext, field) ∈ format_fields -> is_Some (u (field b))) ->
  exists files : gmap string JsonURL,
    BookDetails_Files b = Ret files /\
    size files =
      count_available [Txt b; Xml b; Html b; Fb2 b; Epub b; Mobi b; Pdf b] /\
    size files <= 7 /\
    (count_available [Txt b; Xml b; Html b; Fb2 b; Epub b; Mobi b; Pdf b] = 0 ->
     files = ∅).
Proof.
  intros Hall.
  destruct (files_from_size (Slug b)
              ((fun p => (p.1, p.2 b)) <$> format_fields) ∅)
    as (m & Hm & Hsize).
  - intros [ext v] [[ext' field] [[= -> ->] Hin]]%list_elem_of_fmap.
    cbn. eauto.
  - apply (bool_decide_unpack _). reflexivity.
  - intros ext _. apply lookup_empty.
  - exists m. split; [rewrite Files_as_loop; exact Hm|].
    rewrite map_size_empty in Hsize. cbn [fmap list_fmap format_fields snd] in Hsize.
    split; [exact Hsize|]. split.
    + rewrite Hsize. unfold count_available.
      etransitivity; [apply List.filter_length_le|]. reflexivity.
    + intros Hnone. apply map_size_empty_iff. lia.
Qed.

(** X13: the two ways [UnmarshalJSON] fails.  When the bytes are not a
    JSON string, the receiver is left as it was.  When the string does not
    parse as a URL, the receiver is overwritten with the pointer that
    [url.Parse] returned: if that is nil, a URL the receiver held before
    is lost and [String] on the receiver panics. *)
Theorem UnmarshalJSON_failures (j : JsonURL) (b : bytes) :
  (forall (s : string) (e : error),
     json_Unmarshal_string b = (s, Some e) ->
     JsonURL_UnmarshalJSON j b = (j, Some e)) /\
  (forall (s : string) (p : option url_URL) (e : error),
     json_Unmarshal_string b = (s, None) ->
     url_Parse s = (p, Some e) ->
     JsonURL_UnmarshalJSON j b = ({| u := p |}, Some e) /\
     (p = None ->
      JsonURL_String (JsonURL_UnmarshalJSON j b).1 = Panic nil_dereference)).
Proof.
  unfold JsonURL_UnmarshalJSON. split.
  - intros s e ->. reflexivity.
  - intros s p e -> ->. split; [reflexivity|]. intros ->. reflexivity.
Qed.

End PureMore.

(** ** Properties of the listing and of the entry point *)

Section MainMore.
Context `{NetURL} `{PathLib} `{!EncodingJSON} `{Outside} `{FlagLib} `{ProgressBar}.

(** [BooksList] in terms of the one [cachedFile] call it makes, once the
    predefined URL has parsed. *)
Lemma BooksList_run (p : option url_URL) (w : World) :
  url_Parse "https://wolnelektury.pl/api/books/" = (p, None) ->
  BooksList w =
  match cachedFile BooksFile p w with
  | (Ret (content, None), w') => (Ret (json_Unmarshal_Books content), w')
  | (Ret (content, Some e), w') => (Ret ([], Some e), w')
  | (Panic msg, w') => (Panic msg, w')
  | (Exit code, w') => (Exit code, w')
  end.
Proof.
  intros Hparse. unfold BooksList, ApiBooksUrl, mustParseUrl.
  rewrite Hparse. rewrite bind_run. unfold lift at 1. rewrite bind_run.
  destruct (cachedFile BooksFile p w) as [[[content [e|]]|msg|code] w'];
    reflexivity.
Qed.

(** X14: the listing is served from the cache.  When the predefined URL
    parses and [books.json] is readable, [BooksList] returns what the
    decoder makes of its contents, after that one read: no GET, no write.
    When [books.json] does not exist and the run is offline, it returns the
    empty list with [ErrOffline], again after that one read. *)
Theorem BooksList_from_cache (p : option url_URL) (w : World) :
  url_Parse "https://wolnelektury.pl/api/books/" = (p, None) ->
  (forall content : bytes,
     fs_read (fs w) "books.json" = (content, None) ->
     BooksList w =
       (Ret (json_Unmarshal_Books content),
        record (ReadFile_call "books.json") w)) /\
  (forall (content : bytes) (e : error),
     fs_read (fs w) "books.json" = (content, Some e) ->
     os_IsNotExist e = true ->
     Offline w = true ->
     BooksList w =
       (Ret ([], Some ErrOffline), record (ReadFile_call "books.json") w)) /\
  undisturbed w (record (ReadFile_call "books.json") w).
Proof.
  intros Hparse. split; [|split].
  - intros content Hread. rewrite (BooksList_run p w Hparse). unfold BooksFile.
    rewrite (cachedFile_local w _ p content None Hread I). reflexivity.
  - intros content e Hread Hmiss Hoff. rewrite (BooksList_run p w Hparse).
    unfold BooksFile. rewrite (cachedFile_miss_offline w _ p content e Hread Hmiss Hoff).
    reflexivity.
  - apply undisturbed_record; reflexivity.
Qed.

(** The loop over a list of works that is split in two. *)
Lemma obtain_books_app
  (range_order : nat -> gmap string JsonURL -> list (string * JsonURL))
  (i : nat) (pre rest : list BookEssential) (progress : Bar) (w : World) :
  obtain_books range_order i (pre ++ rest) progress w =
  match obtain_books range_order i pre progress w with
  | (Ret progress', w') =>
      obtain_books range_order (i + length pre) rest progress' w'
  | (Panic msg, w') => (Panic msg, w')
  | (Exit code, w') => (Exit code, w')
  end.
Proof.
  revert i progress w. induction pre as [|b pre IH]; intros i progress w.
  - cbn. rewrite Nat.add_0_r. reflexivity.
  - cbn [app obtain_books]. rewrite !bind_run.
    destruct (BookEssential_ObtainBook (range_order i) b w)
      as [[book|msg|code] w1]; try reflexivity.
    rewrite IH. cbn [length]. rewrite Nat.add_succ_r. reflexivity.
Qed.

(** [main] by its steps. *)
Lemma main_run (args : list string)
  (range_order : nat -> gmap string JsonURL -> list (string * JsonURL))
  (w : World) :
  main args range_order w =
  match flag_Parse args with
  | Ret o =>
      match BooksList (with_offline o w) with
      | (Ret (books, None), w0) =>
          match obtain_books range_order 0 books
                  (pb_StartNew (length books)) w0 with
          | (Ret progress, w') => (Ret (pb_Finish progress), w')
          | (Panic msg, w') => (Panic msg, w')
          | (Exit code, w') => (Exit code, w')
          end
      | (Ret (books, Some e), w0) =>
          (Exit 1, record (Log_call (Error e)) w0)
      | (Panic msg, w0) => (Panic msg, w0)
      | (Exit code, w0) => (Exit code, w0)
      end
  | Panic msg => (Panic msg, w)
  | Exit code => (Exit code, w)
  end.
Proof.
  unfold main. rewrite bind_run. unfold flag_Parse_args at 1.
  destruct (flag_Parse args) as [o|msg|code]; try reflexivity.
  rewrite bind_run.
  destruct (BooksList (with_offline o w)) as [[[books [e|]]|msg|code] w0];
    reflexivity.
Qed.

(** X15: [main] stops at the first work that fails.  When the works before
    [b] have been obtained and [ObtainBook] on [b] does not return, [main]
    ends as that call ended and in the world that call left: the works
    after [b] are not touched, whatever they are. *)
Theorem main_stops_at_first_failure (args : list string)
  (range_order : nat -> gmap string JsonURL -> list (string * JsonURL))
  (w w0 w1 w2 : World) (offline : bool)
  (pre post : list BookEssential) (b : BookEssential)
  (progress : Bar) (o : outcome BookDetails) :
  flag_Parse args = Ret offline ->
  BooksList (with_offline offline w) = (Ret (pre ++ b :: post, None), w0) ->
  obtain_books range_order 0 pre
    (pb_StartNew (length (pre ++ b :: post))) w0 = (Ret progress, w1) ->
  BookEssential_ObtainBook (range_order (length pre)) b w1 = (o, w2) ->
  (forall book, o <> Ret book) ->
  exists o' : outcome Bar,
    main args range_order w = (o', w2) /\
    match o, o' with
    | Panic msg, Panic msg' => msg' = msg
    | Exit code, Exit code' => code' = code
    | _, _ => False
    end.
Proof.
  intros Hflag Hlist Hpre Hrun Hfail.
  rewrite main_run, Hflag, Hlist, obtain_books_app, Hpre.
  cbn [obtain_books Nat.add]. rewrite bind_run, Hrun.
  destruct o as [book|msg|code].
  - destruct (Hfail book eq_refl).
  - eexists. split; reflexivity.
  - eexists. split; reflexivity.
Qed.

(** Offline, the loop over the works fetches nothing. *)
Lemma obtain_books_offline
  (range_order : nat -> gmap string JsonURL -> list (string * JsonURL))
  (i : nat) (books : list BookEssential) (progress : Bar) (w : World) :
  Offline w = true ->
  exists (o : outcome Bar) (w' : World),
    obtain_books range_order i books progress w = (o, w') /\ no_fetch w w'.
Proof.
  revert i progress w.
  induction books as [|b rest IH]; intros i progress w Hoff.
  - eexists _, w. split; [reflexivity|]. repeat split.
  - cbn [obtain_books]. rewrite bind_run.
    destruct (ObtainBook_offline_run (range_order i) b w Hoff)
      as (o & w1 & Hrun & H01 & _).
    rewrite Hrun. destruct o as [book|msg|code].
    + assert (Hoff1 : Offline w1 = true).
      { destruct H01 as (_ & Hflag & _). congruence. }
      destruct (IH (S i) (pb_Increment progress) w1 Hoff1)
        as (o' & w' & Hrest & H1').
      exists o', w'. split; [exact Hrest|].
      destruct H01 as (? & ? & ? & ?), H1' as (? & ? & ? & ?).
      repeat split; congruence.
    + eexists _, _. split; [reflexivity | exact H01].
    + eexists _, _. split; [reflexivity | exact H01].
Qed.

(** X16: a run with [-offline] fetches nothing.  Whatever the catalogue
    and the state of the cache, [main] makes no GET and no file write, and
    the remote side is as before. *)
Theorem main_offline_never_fetches (args : list string)
  (range_order : nat -> gmap string JsonURL -> list (string * JsonURL))
  (w : World) :
  flag_Parse args = Ret true ->
  exists (o : outcome Bar) (w' : World),
    main args range_order w = (o, w') /\
    net w' = net w /\
    net_calls (trace w') = net_calls (trace w) /\
    fs_writes (trace w') = fs_writes (trace w).
Proof.
  intros Hflag. rewrite main_run, Hflag.
  set (w0 := with_offline true w).
  assert (Hoff : Offline w0 = true) by reflexivity.
  assert (Hlist : exists r w1, BooksList w0 = (r, w1) /\
            match r with Exit _ => False | _ => True end /\
            Offline w1 = true /\ net w1 = net w /\
            net_calls (trace w1) = net_calls (trace w) /\
            fs_writes (trace w1) = fs_writes (trace w)).
  { unfold BooksList, ApiBooksUrl, mustParseUrl.
    destruct (url_Parse "https://wolnelektury.pl/api/books/") as [p [e|]].
    - eexists _, _. split; [reflexivity|]. repeat split.
    - rewrite bind_run. unfold lift at 1. rewrite bind_run.
      destruct (cachedFile_offline_run w0 BooksFile p Hoff)
        as ([content err] & Hrun & _).
      rewrite Hrun.
      assert (Hq : Offline (record (ReadFile_call BooksFile) w0) = true /\
                   net (record (ReadFile_call BooksFile) w0) = net w /\
                   net_calls (trace (record (ReadFile_call BooksFile) w0))
                     = net_calls (trace w) /\
                   fs_writes (trace (record (ReadFile_call BooksFile) w0))
                     = fs_writes (trace w)).
      { unfold record, w0, with_offline; cbn [net Offline trace].
        rewrite net_calls_app, fs_writes_app. cbn. repeat split; lia. }
      destruct err as [e|]; eexists _, _; (split; [reflexivity|]);
        (split; [exact I | exact Hq]). }
  destruct Hlist as (r & w1 & -> & Hr & Hoff1 & Hnet1 & Hcalls1 & Hwrites1).
  destruct r as [[books [e|]]|msg|code].
  - eexists _, _. split; [reflexivity|].
    unfold record; cbn [net trace].
    rewrite net_calls_app, fs_writes_app. cbn. repeat split; [assumption|lia..].
  - destruct (obtain_books_offline range_order 0 books
                (pb_StartNew (length books)) w1 Hoff1)
      as (o & w' & Hloop & Hnet' & _ & Hcalls' & Hwrites').
    rewrite Hloop.
    destruct o as [progress|msg|code]; eexists _, _;
      (split; [reflexivity|]); repeat split; congruence.
  - eexists _, _. split; [reflexivity|]. auto.
  - destruct Hr.
Qed.

(** Over populated caches, the loop over the works fetches nothing and
    leaves the file system as it was. *)
Lemma obtain_books_cached
  (range_order : nat -> gmap string JsonURL -> list (string * JsonURL))
  (i : nat) (books : list BookEssential) (progress : Bar) (w : World) :
  (forall i m, range_order i m ≡ₚ map_to_list m) ->
  (forall b, b ∈ books -> cache_populated (fs w) b) ->
  exists (o : outcome Bar) (w' : World),
    obtain_books range_order i books progress w = (o, w') /\
    undisturbed w w' /\
    ((forall b, b ∈ books ->
        exists content book,
          fs_read (fs w) (path_Join [be_Slug b; DetailsFile]) = (content, None) /\
          outcome_from_cache (be_Slug b) content = Ret book) ->
     o = Ret (Nat.iter (length books) pb_Increment progress)).
Proof.
  intros Horder. revert i progress w.
  induction books as [|b rest IH]; intros i progress w Hcache.
  - eexists _, w. split; [reflexivity|]. split; [apply undisturbed_refl|].
    reflexivity.
  - cbn [obtain_books]. rewrite bind_run.
    destruct (ObtainBook_on_populated_cache (range_order i) b w (Horder i))
      as (content & w1 & Hread & Hrun & H01); [apply Hcache; left|].
    rewrite Hrun.
    assert (Hfs1 : fs w1 = fs w) by apply H01.
    destruct (IH (S i) (pb_Increment progress) w1)
      as (o' & w' & Hrest & H1' & Hret).
    { intros b' Hin. rewrite Hfs1. apply Hcache. right. exact Hin. }
    destruct (outcome_from_cache (be_Slug b) content) as [book|msg|code] eqn:Hout.
    + exists o', w'. split; [exact Hrest|].
      split; [eapply undisturbed_trans; eassumption|].
      intros Hall. rewrite Hret.
      * cbn [length]. rewrite Nat.iter_succ_r. reflexivity.
      * intros b' Hin. rewrite Hfs1. apply Hall. right. exact Hin.
    + eexists _, _. split; [reflexivity|]. split; [exact H01|].
      intros Hall. destruct (Hall b) as (content' & book & Hread' & Hout'); [left|].
      rewrite Hread in Hread'. injection Hread' as <-. congruence.
    + eexists _, _. split; [reflexivity|]. split; [exact H01|].
      intros Hall. destruct (Hall b) as (content' & book & Hread' & Hout'); [left|].
      rewrite Hread in Hread'. injection Hread' as <-. congruence.
Qed.

(** X17: a run over a catalogue that is cached in full makes no network
    call.  When [books.json] is readable and decodes to a list of works
    whose caches are all populated, [main] makes no GET and no write and
    leaves the file system as it was, online or offline; and when every
    cached [details.json] decodes and resolves, it returns with the
    progress bar started at the number of works, incremented once per work
    and finished. *)
Theorem main_all_cached (args : list string)
  (range_order : nat -> gmap string JsonURL -> list (string * JsonURL))
  (w : World) (offline : bool) (p : option url_URL)
  (content : bytes) (books : list BookEssential) :
  (forall i m, range_order i m ≡ₚ map_to_list m) ->
  flag_Parse args = Ret offline ->
  url_Parse "https://wolnelektury.pl/api/books/" = (p, None) ->
  fs_read (fs w) "books.json" = (content, None) ->
  json_Unmarshal_Books content = (books, None) ->
  (forall b, b ∈ books -> cache_populated (fs w) b) ->
  exists (o : outcome Bar) (w' : World),
    main args range_order w = (o, w') /\
    fs w' = fs w /\ net w' = net w /\
    net_calls (trace w') = net_calls (trace w) /\
    fs_writes (trace w') = fs_writes (trace w) /\
    ((forall b, b ∈ books ->
        exists content book,
          fs_read (fs w) (path_Join [be_Slug b; DetailsFile]) = (content, None) /\
          outcome_from_cache (be_Slug b) content = Ret book) ->
     o = Ret (pb_Finish
                (Nat.iter (length books) pb_Increment
                   (pb_StartNew (length books))))).
Proof.
  intros Horder Hflag Hparse Hread Hdec Hcache.
  rewrite main_run, Hflag.
  rewrite (BooksList_run p _ Hparse). unfold BooksFile.
  rewrite (cachedFile_local (with_offline offline w) _ p content None Hread I).
  rewrite Hdec.
  set (w0 := record (ReadFile_call "books.json") (with_offline offline w)).
  destruct (obtain_books_cached range_order 0 books
              (pb_StartNew (length books)) w0 Horder)
    as (o & w' & Hloop & (Hfs & Hnet & _ & Hcalls & Hwrites) & Hret).
  { intros b Hin. apply Hcache. exact Hin. }
  rewrite Hloop.
  assert (Hq : fs w' = fs w /\ net w' = net w /\
               net_calls (trace w') = net_calls (trace w) /\
               fs_writes (trace w') = fs_writes (trace w)).
  { rewrite Hfs, Hnet, Hcalls, Hwrites.
    unfold w0, record, with_offline; cbn [fs net trace].
    rewrite net_calls_app, fs_writes_app. cbn. repeat split; lia. }
  destruct Hq as (Hq1 & Hq2 & Hq3 & Hq4).
  destruct o as [progress|msg|code]; eexists _, _;
    (split; [reflexivity|]); repeat (split; [assumption|]); intros Hall.
  - specialize (Hret Hall). injection Hret as ->. reflexivity.
  - specialize (Hret Hall). discriminate.
  - specialize (Hret Hall). discriminate.
Qed.


End MainMore.

(** ** The further statements on concrete inputs *)

Section MoreExamples.
#[local] Existing Instance Demo.url.
#[local] Existing Instance Demo.path.
#[local] Existing Instance Demo.json.
#[local] Existing Instance Demo.outside.
#[local] Existing Instance DemoMain.flags.
#[local] Existing Instance DemoMain.bar.

(** A GET that fails: the remote side does not know the URL. *)
Lemma cachedFile_get_error_witness :
  net_get (net (Demo.world ∅ false)) "http://x/ipsum.txt" =
    (Demo.remote, inr (LibError "net/http" "no such host")) /\
  exists w' : World,
    cachedFile "ipsum.txt" (Demo.ptr "http://x/ipsum.txt") (Demo.world ∅ false)
      = (Ret ([], Some (LibError "net/http" "no such host")), w') /\
    fs w' = ∅ /\ net w' = Demo.remote /\
    trace w' =
      [ReadFile_call "ipsum.txt";
       Log_call "ipsum.txt not available offline, downloading";
       Get_call "http://x/ipsum.txt"] /\
    fs_writes (trace w') = 0.
Proof.
  split; [reflexivity|].
  apply (cachedFile_get_error (Demo.world ∅ false) "ipsum.txt"
           ("http://x/ipsum.txt" : @url_URL Demo.url) []
           (PathError "open" "ipsum.txt" ENOENT)); reflexivity.
Defined.

(** Offline, over an empty cache and without a URL. *)
Lemma cachedFile_offline_never_fetches_witness :
  Offline (Demo.world ∅ true) = true /\
  exists (r : bytes * option error) (w' : World),
    cachedFile "lorem.txt" None (Demo.world ∅ true) = (Ret r, w') /\
    (r = fs_read (fs (Demo.world ∅ true)) "lorem.txt" \/
     r = ([], Some ErrOffline)) /\
    fs w' = ∅ /\ net w' = Demo.remote /\
    trace w' = [ReadFile_call "lorem.txt"] /\
    net_calls (trace w') = 0 /\ fs_writes (trace w') = 0.
Proof.
  split; [reflexivity|].
  apply (cachedFile_offline_never_fetches (Demo.world ∅ true) "lorem.txt" None).
  reflexivity.
Defined.

(** A fetch followed by a second call on the same path. *)
Lemma cachedFile_then_cached_witness :
  exists w1 w2 : World,
    cachedFile "lorem.txt" (Demo.ptr "http://x/lorem.txt") (Demo.world ∅ false)
      = (Ret (list_byte_of_string "Lorem ipsum dolor sit amet", None), w1) /\
    cachedFile "lorem.txt" None w1
      = (Ret (list_byte_of_string "Lorem ipsum dolor sit amet", None), w2) /\
    fs w2 = fs w1 /\ net w2 = net w1 /\
    net_calls (trace w2) = net_calls (trace w1) /\
    fs_writes (trace w2) = fs_writes (trace w1).
Proof.
  apply (cachedFile_then_cached (Demo.world ∅ false) "lorem.txt"
           ("http://x/lorem.txt" : @url_URL Demo.url) None []
           (PathError "open" "lorem.txt" ENOENT) Demo.remote
           {| Body := (list_byte_of_string "Lorem ipsum dolor sit amet", None) |}
           (list_byte_of_string "Lorem ipsum dolor sit amet")
           {[ "lorem.txt" :=
                Demo.File (list_byte_of_string "Lorem ipsum dolor sit amet") ]});
    reflexivity.
Defined.

(** A cached [details.json] that breaks off. *)
Lemma Details_corrupt_cache_is_permanent_witness :
  json_Unmarshal_BookDetails (list_byte_of_string "lorem det") =
    (Demo.truncated_details,
     Some (LibError "encoding/json" "unexpected end of JSON input")) /\
  exists w1 w2 : World,
    BookEssential_Details Demo.lorem (Demo.world DemoMain.corrupt_cache false) =
      (Ret (set_Slug "lorem" Demo.truncated_details,
            Some (LibError "encoding/json" "unexpected end of JSON input")), w1) /\
    BookEssential_Details Demo.lorem w1 =
      (Ret (set_Slug "lorem" Demo.truncated_details,
            Some (LibError "encoding/json" "unexpected end of JSON input")), w2) /\
    undisturbed (Demo.world DemoMain.corrupt_cache false) w1 /\
    undisturbed w1 w2.
Proof.
  split; [reflexivity|].
  apply (Details_corrupt_cache_is_permanent Demo.lorem
           (Demo.world DemoMain.corrupt_cache false)
           (list_byte_of_string "lorem det")); reflexivity.
Defined.

(** A detail response that breaks off, fetched into an empty cache. *)
Lemma Details_caches_before_decoding_witness :
  exists w1 : World,
    BookEssential_Details Demo.lorem
      (@mkWorld Demo.outside ∅ DemoMain.truncating_remote false []) =
      (Ret (set_Slug "lorem" Demo.truncated_details,
            Some (LibError "encoding/json" "unexpected end of JSON input")), w1) /\
    fs w1 = {[ "lorem/details.json" :=
                 Demo.File (list_byte_of_string "lorem det") ]} /\
    WriteFile_call "lorem/details.json" (list_byte_of_string "lorem det")
      octal_0644 ∈ trace w1 /\
    (fs_read ({[ "lorem/details.json" :=
                   Demo.File (list_byte_of_string "lorem det") ]}
                : gmap string Demo.node) "lorem/details.json"
       = (list_byte_of_string "lorem det", None) ->
     exists w2 : World,
       BookEssential_Details Demo.lorem w1 =
         (Ret (set_Slug "lorem" Demo.truncated_details,
               Some (LibError "encoding/json" "unexpected end of JSON input")),
          w2) /\
       undisturbed w1 w2).
Proof.
  refine (Details_caches_before_decoding Demo.lorem
           (@mkWorld Demo.outside ∅ DemoMain.truncating_remote false [])
           ("http://api/lorem/" : @url_URL Demo.url) []
           (PathError "open" "lorem/details.json" ENOENT)
           DemoMain.truncating_remote
           {| Body := (list_byte_of_string "lorem det", None) |}
           (list_byte_of_string "lorem det")
           ({[ "lorem/details.json" :=
                 Demo.File (list_byte_of_string "lorem det") ]}
              : gmap string Demo.node)
           Demo.truncated_details
           (LibError "encoding/json" "unexpected end of JSON input")
           _ _ _ _ _ _ _ _); reflexivity.
Defined.

(** Offline, over an empty cache: the directory is created, nothing is
    fetched. *)
Lemma ObtainBook_offline_never_fetches_witness :
  Offline (Demo.world ∅ true) = true /\
  exists (o : outcome BookDetails) (w' : World),
    BookEssential_ObtainBook Demo.range_order Demo.lorem (Demo.world ∅ true)
      = (o, w') /\
    no_fetch (Demo.world ∅ true) w' /\
    fs w' = {[ "lorem" := Demo.Dir ]}.
Proof.
  split; [reflexivity|].
  exact (ObtainBook_offline_never_fetches Demo.range_order Demo.lorem
           (Demo.world ∅ true) eq_refl).
Defined.

(** The first run of "lorem": it returns, and so every file was looked
    up. *)
Lemma ObtainBook_ends_witness :
  exists w' : World,
    BookEssential_ObtainBook Demo.range_order Demo.lorem (Demo.world ∅ false)
      = (Ret (set_Slug "lorem" Demo.lorem_details), w') /\
    Slug (set_Slug "lorem" Demo.lorem_details) = "lorem" /\
    Mkdir_call "lorem" octal_0755 ∈ trace w' /\
    ReadFile_call "lorem/details.json" ∈ trace w' /\
    exists files : gmap string JsonURL,
      BookDetails_Files (set_Slug "lorem" Demo.lorem_details) = Ret files /\
      forall fileName originUrl, files !! fileName = Some originUrl ->
        ReadFile_call (path_Join ["lorem"; fileName]) ∈ trace w'.
Proof.
  destruct (BookEssential_ObtainBook Demo.range_order Demo.lorem
              (Demo.world ∅ false)) as [o w'] eqn:Hrun.
  assert (Ho : o = Ret (set_Slug "lorem" Demo.lorem_details)).
  { vm_compute in Hrun. injection Hrun as <- _. reflexivity. }
  exists w'. subst o. split; [reflexivity|].
  exact (ObtainBook_ends Demo.range_order Demo.lorem (Demo.world ∅ false) w'
           (Ret (set_Slug "lorem" Demo.lorem_details))
           (fun m => reflexivity (map_to_list m)) Hrun).
Defined.

(** Details with a text link only: one file. *)
Lemma Files_size_witness :
  exists files : gmap string JsonURL,
    BookDetails_Files Demo.foo_details = Ret files /\
    size files =
      count_available
        [Txt Demo.foo_details; Xml Demo.foo_details; Html Demo.foo_details;
         Fb2 Demo.foo_details; Epub Demo.foo_details; Mobi Demo.foo_details;
         Pdf Demo.foo_details] /\
    size files <= 7 /\
    (count_available
        [Txt Demo.foo_details; Xml Demo.foo_details; Html Demo.foo_details;
         Fb2 Demo.foo_details; Epub Demo.foo_details; Mobi Demo.foo_details;
         Pdf Demo.foo_details] = 0 ->
     files = ∅).
Proof.
  apply (Files_size Demo.foo_details).
  intros ext field Hin.
  repeat (apply elem_of_cons in Hin as [[= -> ->]|Hin];
          [eexists; reflexivity|]).
  inversion Hin.
Defined.

(** The listing, from the cache and offline without one. *)
Lemma BooksList_from_cache_witness :
  BooksList (Demo.world DemoMain.cache_with_listing false) =
    (Ret ([Demo.lorem], None),
     record (ReadFile_call "books.json")
       (Demo.world DemoMain.cache_with_listing false)) /\
  BooksList (Demo.world ∅ true) =
    (Ret ([], Some ErrOffline),
     record (ReadFile_call "books.json") (Demo.world ∅ true)).
Proof.
  split.
  - exact (proj1 (BooksList_from_cache
                    (Demo.ptr "https://wolnelektury.pl/api/books/")
                    (Demo.world DemoMain.cache_with_listing false) eq_refl)
             (list_byte_of_string "lorem list") eq_refl).
  - exact (proj1 (proj2 (BooksList_from_cache
                    (Demo.ptr "https://wolnelektury.pl/api/books/")
                    (Demo.world ∅ true) eq_refl))
             [] (PathError "open" "books.json" ENOENT) eq_refl eq_refl eq_refl).
Defined.

(** A whole run with [-offline] over an empty cache. *)
Lemma main_offline_never_fetches_witness :
  flag_Parse ["-offline"] = Ret true /\
  exists (o : outcome Bar) (w' : World),
    main ["-offline"] DemoMain.order (Demo.world ∅ false) = (o, w') /\
    net w' = Demo.remote /\
    net_calls (trace w') = 0 /\ fs_writes (trace w') = 0.
Proof.
  split; [reflexivity|].
  apply (main_offline_never_fetches ["-offline"] DemoMain.order
           (Demo.world ∅ false)).
  reflexivity.
Defined.

(** A whole run over the populated cache of "lorem" and its listing. *)
Lemma main_all_cached_witness :
  exists (o : outcome Bar) (w' : World),
    main [] DemoMain.order (Demo.world DemoMain.cache_with_listing false)
      = (o, w') /\
    fs w' = DemoMain.cache_with_listing /\ net w' = Demo.remote /\
    net_calls (trace w') = 0 /\ fs_writes (trace w') = 0 /\
    o = Ret (DemoMain.mkBar 1 1 true).
Proof.
  assert (Hcache : forall b, b ∈ [Demo.lorem] ->
            cache_populated DemoMain.cache_with_listing b).
  { intros b ->%list_elem_of_singleton. split.
    - eexists. split; reflexivity.
    - eexists. split; [reflexivity|].
      intros decoded files fileName originUrl Hdec Hfiles Hlookup.
      injection Hdec as <-. injection Hfiles as <-.
      apply lookup_insert_Some in Hlookup as [[<- _]|[_ Hlookup]];
        [eexists; reflexivity|].
      apply lookup_insert_Some in Hlookup as [[<- _]|[_ Hlookup]];
        [eexists; reflexivity|].
      rewrite lookup_empty in Hlookup. discriminate. }
  assert (Hflag : flag_Parse [] = Ret false) by reflexivity.
  assert (Hparse : url_Parse "https://wolnelektury.pl/api/books/" =
                     (Demo.ptr "https://wolnelektury.pl/api/books/", None))
    by reflexivity.
  assert (Hread : fs_read (fs (Demo.world DemoMain.cache_with_listing false))
                    "books.json" = (list_byte_of_string "lorem list", None))
    by reflexivity.
  assert (Hdec : json_Unmarshal_Books (list_byte_of_string "lorem list") =
                   ([Demo.lorem], None))
    by reflexivity.
  destruct (main_all_cached [] DemoMain.order
              (Demo.world DemoMain.cache_with_listing false) false
              (Demo.ptr "https://wolnelektury.pl/api/books/")
              (list_byte_of_string "lorem list") [Demo.lorem]
              (fun i m => reflexivity (map_to_list m))
              Hflag Hparse Hread Hdec Hcache)
    as (o & w' & Hrun & Hfs & Hnet & Hcalls & Hwrites & Hret).
  exists o, w'. repeat (split; [assumption|]).
  apply Hret. intros b ->%list_elem_of_singleton.
  eexists _, _. split; reflexivity.
Defined.

End MoreExamples.

Section FailFastExample.
#[local] Existing Instance Demo.url.
#[local] Existing Instance Demo.path.
#[local] Existing Instance DemoMain.json.
#[local] Existing Instance Demo.outside.
#[local] Existing Instance DemoMain.flags.
#[local] Existing Instance DemoMain.bar.

(** A listing of two works, "ipsum" then "lorem"; the remote side does not
    know "ipsum".  The run ends with status 1 on "ipsum", and "lorem",
    which the remote side knows, is not even given a directory. *)
Lemma main_stops_at_first_failure_witness :
  BooksList (with_offline false (Demo.world DemoMain.listing_of_two false)) =
    (Ret ([] ++ DemoMain.ipsum :: [Demo.lorem], None),
     record (ReadFile_call "books.json")
       (Demo.world DemoMain.listing_of_two false)) /\
  exists w2 : World,
    main [] DemoMain.order (Demo.world DemoMain.listing_of_two false)
      = (Exit 1, w2) /\
    fs w2 !! "ipsum" = Some Demo.Dir /\
    fs w2 !! "lorem" = None.
Proof.
  split; [reflexivity|].
  destruct (BookEssential_ObtainBook (DemoMain.order 0) DemoMain.ipsum
              (record (ReadFile_call "books.json")
                 (Demo.world DemoMain.listing_of_two false)))
    as [o w2] eqn:Hrun.
  pose proof Hrun as Hval. vm_compute in Hval. injection Hval as Ho Hw.
  assert (Hflag : flag_Parse [] = Ret false) by reflexivity.
  assert (Hlist :
    BooksList (with_offline false (Demo.world DemoMain.listing_of_two false)) =
      (Ret ([] ++ DemoMain.ipsum :: [Demo.lorem], None),
       record (ReadFile_call "books.json")
         (Demo.world DemoMain.listing_of_two false)))
    by reflexivity.
  assert (Hpre :
    obtain_books DemoMain.order 0 []
      (pb_StartNew (length ([] ++ DemoMain.ipsum :: [Demo.lorem])))
      (record (ReadFile_call "books.json")
         (Demo.world DemoMain.listing_of_two false)) =
    (Ret (pb_StartNew 2),
     record (ReadFile_call "books.json")
       (Demo.world DemoMain.listing_of_two false)))
    by reflexivity.
  destruct (main_stops_at_first_failure [] DemoMain.order
              (Demo.world DemoMain.listing_of_two false)
              (record (ReadFile_call "books.json")
                 (Demo.world DemoMain.listing_of_two false))
              (record (ReadFile_call "books.json")
                 (Demo.world DemoMain.listing_of_two false))
              w2 false [] [Demo.lorem] DemoMain.ipsum
              (pb_StartNew 2) o Hflag Hlist Hpre Hrun)
    as (o' & Hmain & Hsame).
  { intros book Hret. rewrite Hret in Ho. discriminate Ho. }
  exists w2. rewrite <- Ho in Hsame.
  destruct o' as [progress|msg|code]; try contradiction. subst code.
  split; [exact Hmain|]. rewrite <- Hw. split; reflexivity.
Defined.

End FailFastExample.

Section FlakyExamples.
#[local] Existing Instance Demo.url.
#[local] Existing Instance Demo.path.
#[local] Existing Instance Demo.json.
#[local] Existing Instance DemoMain.flaky.

(** A response that breaks off: the five bytes read are returned with the
    error, and the cache stays empty. *)
Lemma cachedFile_body_error_witness :
  net_get (net (DemoMain.flaky_world false)) "http://x/lorem.txt" =
    (DemoMain.flaky_remote, inl DemoMain.broken_response) /\
  exists w' : World,
    cachedFile "lorem.txt" (Demo.ptr "http://x/lorem.txt")
      (DemoMain.flaky_world false)
      = (Ret (list_byte_of_string "Lorem",
              Some (LibError "net/http" "unexpected EOF")), w') /\
    fs w' = (false, ∅) /\ net w' = DemoMain.flaky_remote /\
    trace w' =
      [ReadFile_call "lorem.txt";
       Log_call "lorem.txt not available offline, downloading";
       Get_call "http://x/lorem.txt"] /\
    fs_writes (trace w') = 0.
Proof.
  split; [reflexivity|].
  refine (cachedFile_body_error (DemoMain.flaky_world false) "lorem.txt"
            ("http://x/lorem.txt" : @url_URL Demo.url) []
            (PathError "open" "lorem.txt" ENOENT)
            (LibError "net/http" "unexpected EOF")
            DemoMain.flaky_remote DemoMain.broken_response
            (list_byte_of_string "Lorem") _ _ _ _ _); reflexivity.
Defined.

(** A read-only file system: the directory cannot be created. *)
Lemma ObtainBook_mkdir_failure_is_fatal_witness :
  fs_mkdir (fs (DemoMain.flaky_world true)) "lorem" octal_0755 =
    inr (PathError "mkdir" "lorem" EACCES) /\
  os_IsExist (PathError "mkdir" "lorem" EACCES) = false /\
  exists w' : World,
    BookEssential_ObtainBook Demo.range_order Demo.lorem
      (DemoMain.flaky_world true) = (Exit 1, w') /\
    fs w' = (true, ∅) /\ net w' = DemoMain.flaky_remote /\
    trace w' =
      [Mkdir_call "lorem" octal_0755;
       Log_call "mkdir lorem: permission denied"].
Proof.
  split; [reflexivity|]. split; [reflexivity|].
  exact (ObtainBook_mkdir_failure_is_fatal Demo.range_order Demo.lorem
           (DemoMain.flaky_world true)
           (PathError "mkdir" "lorem" EACCES) eq_refl eq_refl).
Defined.

End FlakyExamples.
